(** * The semantic-view notebook: schema declaration, SQL cells and the two
      Streamlit cells of [getting-started-with-snowflake-semantic-view.ipynb].

    The development has three parts, one module each:
    - [SemanticView]: the [CREATE OR REPLACE SEMANTIC VIEW] declaration of cell
      [sql_step4] as data (tables, relationships, facts, dimensions, metrics),
      with name resolution and the graph of table references;
    - [Notebook]: the SQL statements of the cells in execution order and their
      effect on the warehouse catalog;
    - [Apps]: the Python cells [py_visualization] and [py_dashboard] over a
      dataframe, with the pandas operations they call. *)

From Stdlib Require Import List String Ascii Bool Arith ZArith QArith Lia.
From Stdlib Require Import Relations Sorted OrderedTypeEx.
From Stdlib Require Import Permutation.
Import ListNotations.

Local Open Scope string_scope.
Local Open Scope list_scope.

(** ** Identifiers

    Unquoted SQL identifiers are case-insensitive: [item.cost] names the fact
    declared as [ITEM.COST]. Identifiers are compared after upper-casing. *)

Definition upcase (c : ascii) : ascii :=
  let n := nat_of_ascii c in
  if (97 <=? n)%nat && (n <=? 122)%nat then ascii_of_nat (n - 32) else c.

Fixpoint upper (s : string) : string :=
  match s with
  | EmptyString => EmptyString
  | String c s' => String (upcase c) (upper s')
  end.

Definition ident_eqb (a b : string) : bool := String.eqb (upper a) (upper b).

Fixpoint idents_eqb (xs ys : list string) : bool :=
  match xs, ys with
  | [], [] => true
  | x :: xs', y :: ys' => ident_eqb x y && idents_eqb xs' ys'
  | _, _ => false
  end.

Fixpoint ends_with (suffix s : string) : bool :=
  String.eqb s suffix ||
  match s with
  | EmptyString => false
  | String _ s' => ends_with suffix s'
  end.

Module SemanticView.

(** A logical table of the [tables] clause: [alias AS base PRIMARY KEY (...)
    with synonyms (...) comment = '...']. Without [AS] the alias is the base
    table's own name. *)
Record logical_table := {
  t_alias : string;
  t_base : string;
  t_primary_key : list string;
  t_synonyms : list string;
  t_comment : string
}.

(** [name as table(columns) references ref_table(ref_columns)]. *)
Record relationship := {
  r_name : string;
  r_table : string;
  r_columns : list string;
  r_ref_table : string;
  r_ref_columns : list string
}.

(** The defining expression after [as]: a bare column name, a name qualified
    by a table alias, an aggregate applied to an expression ([SUM(...)]), or
    two expressions joined by an operator. *)
Inductive expr :=
| Column (c : string)
| Qualified (t c : string)
| Call (f : string) (arg : expr)
| Binop (op : string) (l r : expr).

Definition Sum (e : expr) : expr := Call "SUM" e.

(** A fact, dimension or metric: [table.name as expr with synonyms (...)
    comment = '...']. *)
Record member := {
  m_table : string;
  m_name : string;
  m_expr : expr;
  m_synonyms : list string;
  m_comment : string
}.

Record semantic_view := {
  sv_name : string;
  sv_tables : list logical_table;
  sv_relationships : list relationship;
  sv_facts : list member;
  sv_dimensions : list member;
  sv_metrics : list member
}.

(** *** The declaration of cell [sql_step4] *)

Definition CUSTOMER : logical_table :=
  {| t_alias := "CUSTOMER"; t_base := "CUSTOMER"; t_primary_key := ["C_CUSTOMER_SK"];
     t_synonyms := ["BUYER"; "PURCHASER"; "CLIENT"; "CONSUMER"];
     t_comment := "This table stores customer demographic information, specifically the birth year and country of origin, uniquely identified by a customer identifier (C_CUSTOMER_SK)." |}.

Definition DATE : logical_table :=
  {| t_alias := "DATE"; t_base := "DATE_DIM"; t_primary_key := ["D_DATE_SK"];
     t_synonyms := ["calendar"; "date_reference"];
     t_comment := "This table stores a dimension of dates, providing a single row for each date, with corresponding surrogate key, month of year, week sequence, and year, to support date-based analysis and reporting in a data warehouse or business intelligence environment" |}.

Definition DEMO : logical_table :=
  {| t_alias := "DEMO"; t_base := "CUSTOMER_DEMOGRAPHICS"; t_primary_key := ["CD_DEMO_SK"];
     t_synonyms := ["client_data"; "demographic_data"];
     t_comment := "This table stores demographic information about customers, including a unique demographic key, credit rating, and marital status." |}.

Definition ITEM : logical_table :=
  {| t_alias := "ITEM"; t_base := "ITEM"; t_primary_key := ["I_ITEM_SK"];
     t_synonyms := ["product"; "merchandise"; "goods"; "commodity"];
     t_comment := "This table stores information about individual items in an inventory, including the brand, category, and class of the item, as well as its unique identifier (I_ITEM_SK), wholesale cost, and current selling price." |}.

Definition STORE : logical_table :=
  {| t_alias := "STORE"; t_base := "STORE"; t_primary_key := ["S_STORE_SK"];
     t_synonyms := ["retail_store"; "shop"; "retail_outlet"; "market_store"];
     t_comment := "This table stores information about retail stores, including their market identification, floor space, location (state and country), unique store identifier, and tax percentage applicable to the store." |}.

Definition STORESALES : logical_table :=
  {| t_alias := "STORESALES"; t_base := "STORE_SALES"; t_primary_key := ["SS_STORE_SK"];
     t_synonyms := ["store_sales"; "sales_data"; "store_revenue"];
     t_comment := "This table captures sales data for a retail store, including demographic information about the customer, the item sold, the date of sale, the store location, the sales price, and the quantity sold." |}.

Definition tables_clause : list logical_table :=
  [ CUSTOMER; DATE; DEMO; ITEM; STORE; STORESALES ].

Definition SALESTOCUSTOMER : relationship :=
  {| r_name := "SALESTOCUSTOMER"; r_table := "STORESALES"; r_columns := ["SS_CUSTOMER_SK"];
     r_ref_table := "CUSTOMER"; r_ref_columns := ["C_CUSTOMER_SK"] |}.

Definition SALESTODATE : relationship :=
  {| r_name := "SALESTODATE"; r_table := "STORESALES"; r_columns := ["SS_SOLD_DATE_SK"];
     r_ref_table := "DATE"; r_ref_columns := ["D_DATE_SK"] |}.

Definition SALESTODEMO : relationship :=
  {| r_name := "SALESTODEMO"; r_table := "STORESALES"; r_columns := ["SS_CDEMO_SK"];
     r_ref_table := "DEMO"; r_ref_columns := ["CD_DEMO_SK"] |}.

Definition SALESTOITEM : relationship :=
  {| r_name := "SALESTOITEM"; r_table := "STORESALES"; r_columns := ["SS_ITEM_SK"];
     r_ref_table := "ITEM"; r_ref_columns := ["I_ITEM_SK"] |}.

Definition SALETOSTORE : relationship :=
  {| r_name := "SALETOSTORE"; r_table := "STORESALES"; r_columns := ["SS_STORE_SK"];
     r_ref_table := "STORE"; r_ref_columns := ["S_STORE_SK"] |}.

Definition relationships_clause : list relationship :=
  [ SALESTOCUSTOMER; SALESTODATE; SALESTODEMO; SALESTOITEM; SALETOSTORE ].

Definition facts_clause : list member :=
  [ {| m_table := "ITEM"; m_name := "COST"; m_expr := Column "I_WHOLESALE_COST";
       m_synonyms := ["price"; "bulk_cost"; "item_cost"];
       m_comment := "The wholesale cost of an item, representing the price at which the item is purchased from the supplier." |}
  ; {| m_table := "ITEM"; m_name := "PRICE"; m_expr := Column "i_current_price";
       m_synonyms := ["current_cost"; "current_value"; "item_price"];
       m_comment := "The current price of an item." |}
  ; {| m_table := "STORE"; m_name := "TAX_RATE"; m_expr := Column "S_TAX_PRECENTAGE";
       m_synonyms := ["tax_rate"; "tax_percent"; "vat_rate"];
       m_comment := "The percentage of sales tax applied to transactions at each store location." |}
  ; {| m_table := "STORESALES"; m_name := "SALES_QUANTITY"; m_expr := Column "SS_QUANTITY";
       m_synonyms := ["item_count"; "quantity_sold"; "product_quantity"];
       m_comment := "The quantity of items sold in a single transaction at the store." |} ].

Definition dimensions_clause : list member :=
  [ {| m_table := "CUSTOMER"; m_name := "BIRTHYEAR"; m_expr := Column "C_BIRTH_YEAR";
       m_synonyms := ["birth_year"; "year_of_birth"];
       m_comment := "The year in which the customer was born" |}
  ; {| m_table := "CUSTOMER"; m_name := "COUNTRY"; m_expr := Column "C_BIRTH_COUNTRY";
       m_synonyms := ["nationality"; "native_country"];
       m_comment := "The country where the customer was born" |}
  ; {| m_table := "CUSTOMER"; m_name := "C_CUSTOMER_SK"; m_expr := Column "c_customer_sk";
       m_synonyms := ["customer_id"; "customer_key"; "customer_number"];
       m_comment := "Unique identifier for a customer in the customer dimension" |}
  ; {| m_table := "DATE"; m_name := "DATE"; m_expr := Column "D_DATE";
       m_synonyms := ["calendar_date"; "date_value"];
       m_comment := "Date dimension representing individual dates, allowing for analysis and filtering by specific days." |}
  ; {| m_table := "DATE"; m_name := "D_DATE_SK"; m_expr := Column "d_date_sk";
       m_synonyms := ["date_key"; "date_surrogate_key"; "date_id"];
       m_comment := "Unique identifier for a specific date in the date dimension, used to join with fact tables." |}
  ; {| m_table := "DATE"; m_name := "MONTH"; m_expr := Column "D_MOY";
       m_synonyms := ["month_of_year"; "month_number"; "month_value"; "month"];
       m_comment := "Month of the year, represented as a numerical value (1-12), where 1 corresponds to January and 12 corresponds to December." |}
  ; {| m_table := "DATE"; m_name := "WEEK"; m_expr := Column "D_WEEK_SEQ";
       m_synonyms := ["week_sequence"; "week_number"];
       m_comment := "A sequential identifier for the week within a given year, starting from 1 for the first week and incrementing by 1 for each subsequent week." |}
  ; {| m_table := "DATE"; m_name := "YEAR"; m_expr := Column "D_YEAR";
       m_synonyms := ["calendar_year"; "year_number"];
       m_comment := "The year in which a date falls, represented as a four-digit integer." |}
  ; {| m_table := "DEMO"; m_name := "CD_DEMO_SK"; m_expr := Column "cd_demo_sk";
       m_synonyms := ["demographic_key"; "demographic_id"];
       m_comment := "Unique identifer for the customer demographic_record" |}
  ; {| m_table := "DEMO"; m_name := "CREDIT_RATING"; m_expr := Column "CD_CREDIT_RATING";
       m_synonyms := ["credit_score"; "credit_rank"; "credit_status"];
       m_comment := "A categorical dimension indicating the creditworthiness of a customer, with values representing a good credit rating, low risk of default, or high risk of default." |}
  ; {| m_table := "DEMO"; m_name := "MARITAL_STATUS"; m_expr := Column "CD_MARITAL_STATUS";
       m_synonyms := ["relationship_status"; "marriage_status"];
       m_comment := "The marital status of the customer, with possible values being Married (M), Single (S), or Divorced (D)" |}
  ; {| m_table := "ITEM"; m_name := "BRAND"; m_expr := Column "I_BRAND";
       m_synonyms := ["brand_name"; "item_brand"; "product_brand"];
       m_comment := "The brand or manufacturer of the item." |}
  ; {| m_table := "ITEM"; m_name := "CATEGORY"; m_expr := Column "I_CATEGORY";
       m_synonyms := ["product_category"; "category_name"; "product_group"];
       m_comment := "Category of the item, which can be Sports, Men, or Music, indicating the type of product or merchandise." |}
  ; {| m_table := "ITEM"; m_name := "CLASS"; m_expr := Column "I_CLASS";
       m_synonyms := ["item_class"; "product_category"; "item_type"];
       m_comment := "The type of item being sold, such as a baseball-themed item, a classical-style item, or a womens watch." |}
  ; {| m_table := "ITEM"; m_name := "I_ITEM_SK"; m_expr := Column "i_item_sk";
       m_synonyms := ["item_identifier"];
       m_comment := "Unique identifier for an item in the inventory." |}
  ; {| m_table := "STORE"; m_name := "MARKET"; m_expr := Column "S_MARKET_ID";
       m_synonyms := ["market_identifier"; "market_code"];
       m_comment := "Unique identifier for a specific store market." |}
  ; {| m_table := "STORE"; m_name := "SQUAREFOOTAGE"; m_expr := Column "S_FLOOR_SPACE";
       m_synonyms := ["square_footage"; "floor_area"; "retail_space"];
       m_comment := "The total square footage of floor space in the store." |}
  ; {| m_table := "STORE"; m_name := "STATE"; m_expr := Column "S_STATE";
       m_synonyms := ["state_code"; "location"];
       m_comment := "State where the store is located." |}
  ; {| m_table := "STORE"; m_name := "STORECOUNTRY"; m_expr := Column "S_COUNTRY";
       m_synonyms := ["nation"; "land"; "territory"; "state"; "region"];
       m_comment := "The country where the store is physically located." |}
  ; {| m_table := "STORE"; m_name := "S_STORE_SK"; m_expr := Column "s_store_sk";
       m_synonyms := ["store_key"; "store_id"; "store_number"; "store_identifier"];
       m_comment := "Unique identifier for a store." |}
  ; {| m_table := "STORESALES"; m_name := "SS_CDEMO_SK"; m_expr := Column "ss_cdemo_sk";
       m_synonyms := ["customer_demo_identifier"; "demographic_identifier"];
       m_comment := "Customer demographic key." |}
  ; {| m_table := "STORESALES"; m_name := "SS_CUSTOMER_SK"; m_expr := Column "ss_customer_sk";
       m_synonyms := ["customer_id"; "customer_identifier"];
       m_comment := "Unique identifier for the customer who made the sale." |}
  ; {| m_table := "STORESALES"; m_name := "SS_ITEM_SK"; m_expr := Column "ss_item_sk";
       m_synonyms := ["item_id"; "item_number"];
       m_comment := "Unique identifier for the item sold." |}
  ; {| m_table := "STORESALES"; m_name := "SS_SOLD_DATE_SK"; m_expr := Column "ss_sold_date_sk";
       m_synonyms := ["sale_date"; "transaction_date"];
       m_comment := "Date key for the date the sale was made, in the format of a unique integer value representing the date in the format YYYYMMDD." |}
  ; {| m_table := "STORESALES"; m_name := "SS_STORE_SK"; m_expr := Column "ss_store_sk";
       m_synonyms := ["store_key"; "store_id"; "store_number"];
       m_comment := "Unique identifier for the store where the sales transaction occurred." |} ].

Definition TOTALCOST : member :=
  {| m_table := "STORESALES"; m_name := "TOTALCOST"; m_expr := Sum (Qualified "item" "cost");
     m_synonyms := ["total_cost"];
     m_comment := "The total cost of an item, representing the price at which the item is purchased from the supplier." |}.

Definition TOTALSALESPRICE : member :=
  {| m_table := "STORESALES"; m_name := "TOTALSALESPRICE"; m_expr := Sum (Column "SS_SALES_PRICE");
     m_synonyms := ["price"];
     m_comment := "The total amount of money earned from sales of all items in a store." |}.

Definition TOTALSALESQUANTITY : member :=
  {| m_table := "STORESALES"; m_name := "TOTALSALESQUANTITY"; m_expr := Sum (Column "SS_QUANTITY");
     m_synonyms := ["total sales quantity"; "total sales amount"];
     m_comment := "The total quantity of items sold in a single transaction." |}.

Definition metrics_clause : list member :=
  [ TOTALCOST; TOTALSALESPRICE; TOTALSALESQUANTITY ].

Definition TPCDS_SEMANTIC_VIEW_SM : semantic_view :=
  {| sv_name := "TPCDS_SEMANTIC_VIEW_SM";
     sv_tables := tables_clause;
     sv_relationships := relationships_clause;
     sv_facts := facts_clause;
     sv_dimensions := dimensions_clause;
     sv_metrics := metrics_clause |}.

(** *** Name resolution *)

Definition members (sv : semantic_view) : list member :=
  sv_facts sv ++ sv_dimensions sv ++ sv_metrics sv.

Definition find_table (sv : semantic_view) (a : string) : list logical_table :=
  filter (fun t => ident_eqb (t_alias t) a) (sv_tables sv).

Definition find_member (sv : semantic_view) (t n : string) : list member :=
  filter (fun m => ident_eqb (m_table m) t && ident_eqb (m_name m) n) (members sv).

(** The names an expression mentions, each with its qualifier if it has one. *)
Fixpoint operands (e : expr) : list (option string * string) :=
  match e with
  | Column c => [(None, c)]
  | Qualified t c => [(Some t, c)]
  | Call _ arg => operands arg
  | Binop _ l r => operands l ++ operands r
  end.

(** The columns of base tables behind one operand, as (table alias, column).
    A bare name is a column of the owning table. A qualified name [t.c] is the
    declared member [c] of table [t] when there is one, and is then resolved
    through that member's own expression; otherwise it is column [c] of [t].
    [fuel] bounds the number of members passed through; [underlying] gives it
    the number of declared members. *)
Fixpoint resolve (fuel : nat) (sv : semantic_view) (owner : string)
    (o : option string * string) : list (string * string) :=
  match o with
  | (None, c) => [(upper owner, upper c)]
  | (Some t, c) =>
      match fuel with
      | O => []
      | S fuel' =>
          match find_member sv t c with
          | [] => [(upper t, upper c)]
          | ms => flat_map (fun m =>
                    flat_map (resolve fuel' sv (m_table m)) (operands (m_expr m))) ms
          end
      end
  end.

Definition underlying (sv : semantic_view) (m : member) : list (string * string) :=
  flat_map (resolve (List.length (members sv)) sv (m_table m)) (operands (m_expr m)).

(** *** Relationships *)

(** A relationship is well formed when both tables are declared once and the
    referenced columns are the referenced table's primary key. *)
Definition valid_relationship (sv : semantic_view) (r : relationship) : bool :=
  match find_table sv (r_table r), find_table sv (r_ref_table r) with
  | [_], [rt] => idents_eqb (r_ref_columns r) (t_primary_key rt)
  | _, _ => false
  end.

(** One edge of the directed graph of table references. *)
Definition references (sv : semantic_view) (a b : string) : Prop :=
  exists r, In r (sv_relationships sv) /\
            a = upper (r_table r) /\ b = upper (r_ref_table r).

Definition join_path (sv : semantic_view) : string -> string -> Prop :=
  clos_trans string (references sv).

Definition fact_table : string := "STORESALES".

Definition dimension_tables (sv : semantic_view) : list string :=
  map (fun t => upper (t_alias t))
      (filter (fun t => negb (ident_eqb (t_alias t) fact_table)) (sv_tables sv)).

(** Depth of a table in a star around the fact table. *)
Definition sales_rank (t : string) : nat :=
  if String.eqb t (upper fact_table) then 1%nat else 0%nat.

(** Whether the columns are declared a key of the table. *)
Definition declared_key (sv : semantic_view) (t : string) (cols : list string) : bool :=
  existsb (fun lt => idents_eqb cols (t_primary_key lt)) (find_table sv t).

(** The kind of link the key declarations give a relationship: the referenced
    side must be a key; when the referencing columns are a key of their own
    table too, a row on either side matches at most one row on the other. *)
Inductive cardinality := ManyToOne | OneToOne.

Definition cardinality_of (sv : semantic_view) (r : relationship) : option cardinality :=
  if declared_key sv (r_ref_table r) (r_ref_columns r) then
    Some (if declared_key sv (r_table r) (r_columns r) then OneToOne else ManyToOne)
  else None.

Definition base_of (sv : semantic_view) (a : string) : list string :=
  map t_base (find_table sv a).

(** *** What it means for a declared name to resolve *)

(** The alias names exactly one table of the [tables] clause. *)
Definition declared_once (sv : semantic_view) (a : string) : Prop :=
  exists! t, In t (sv_tables sv) /\ ident_eqb (t_alias t) a = true.

(** The qualified name [table.name] names this member and no other. *)
Definition named_once (sv : semantic_view) (m : member) : Prop :=
  find_member sv (m_table m) (m_name m) = [m].

(** The member's expression comes down to exactly one column, and that
    column belongs to the table that qualifies the member. *)
Definition own_column (sv : semantic_view) (m : member) : Prop :=
  exists c, underlying sv m = [(upper (m_table m), c)].

(** The member's expression comes down to exactly one column, of the
    qualifying table or of a table it references through a relationship. *)
Definition one_column (sv : semantic_view) (m : member) : Prop :=
  exists t c, underlying sv m = [(t, c)] /\
    (t = upper (m_table m) \/ references sv (upper (m_table m)) t).

Definition check_table (sv : semantic_view) (a : string) : bool :=
  match find_table sv a with [_] => true | _ => false end.

Definition check_own_column (sv : semantic_view) (m : member) : bool :=
  match underlying sv m with
  | [(t, _)] => String.eqb t (upper (m_table m))
  | _ => false
  end.

Definition check_one_column (sv : semantic_view) (m : member) : bool :=
  match underlying sv m with
  | [(t, _)] =>
      String.eqb t (upper (m_table m)) ||
      existsb (fun r => String.eqb (upper (r_table r)) (upper (m_table m)) &&
                        String.eqb (upper (r_ref_table r)) t)
              (sv_relationships sv)
  | _ => false
  end.

(** A fact or dimension is defined by a bare column name. *)
Definition bare_column (m : member) : bool :=
  match m_expr m with Column _ => true | _ => false end.

End SemanticView.

(** ** The SQL cells *)

Module Notebook.
Import SemanticView.

(** [table.name = 'literal'], one conjunct of a [WHERE] inside
    [SEMANTIC_VIEW(...)]. *)
Record condition := {
  c_table : string;
  c_name : string;
  c_literal : string
}.

(** [SELECT * FROM SEMANTIC_VIEW (view DIMENSIONS ... METRICS ... WHERE ...)
    ORDER BY column DESC [LIMIT n]]. *)
Record semantic_query := {
  q_view : string;
  q_dimensions : list (string * string);
  q_metrics : list (string * string);
  q_where : list condition;
  q_order_by_desc : string;
  q_limit : option nat
}.

(** A scalar expression of a [SELECT] without [FROM]. *)
Inductive scalar :=
| Literal (s : string)
| Function (name : string)
| Concat (a b : scalar).

(** [SELECT columns FROM $1 WHERE c IN (...) AND ...]: reads the result of
    the statement before the flow operator [->>]. *)
Record result_select := {
  rs_columns : list (string * option string);
  rs_where_in : list (string * list string)
}.

Inductive statement :=
| UseRole (role : string)
| UseDatabase (database : string)
| UseSchema (schema : string)
| ShowViews
| CreateOrReplaceSemanticView (v : semantic_view)
| ShowSemanticViews
| DescSemanticView (name : string)
| SelectFromResult (s : result_select)
| SelectValue (e : scalar) (alias : string)
| SelectFromSemanticView (q : semantic_query).

Inductive language := SQL | Python.

(** A code cell. A Python cell issues no SQL of its own: [py_link] and [df]
    read the stored result of a named SQL cell with [to_pandas()], and the
    two Streamlit cells read the variable [df]. *)
Record cell := {
  cell_name : string;
  cell_language : language;
  cell_statements : list statement
}.

Definition sql_step3 : cell :=
  {| cell_name := "sql_step3"; cell_language := SQL;
     cell_statements :=
       [ UseDatabase "<mdt3_default_database##>";
         UseSchema "default_schema";
         ShowViews ] |}.

Definition sql_step4 : cell :=
  {| cell_name := "sql_step4"; cell_language := SQL;
     cell_statements :=
       [ UseRole "accountadmin";
         CreateOrReplaceSemanticView TPCDS_SEMANTIC_VIEW_SM ] |}.

Definition sql_step5 : cell :=
  {| cell_name := "sql_step5"; cell_language := SQL;
     cell_statements := [ ShowSemanticViews ] |}.

(** [DESC SEMANTIC VIEW ... ->> SELECT ... FROM $1 WHERE ...]: the flow
    operator chains two statements, listed here in the order they run. *)
Definition sql_step6 : cell :=
  {| cell_name := "sql_step6"; cell_language := SQL;
     cell_statements :=
       [ DescSemanticView "TPCDS_SEMANTIC_VIEW_SM";
         SelectFromResult
           {| rs_columns := [ ("object_kind", None);
                              ("property_value", Some "parent_object");
                              ("object_name", None) ];
              rs_where_in := [ ("object_kind", ["METRIC"; "DIMENSION"]);
                               ("property", ["TABLE"]) ] |} ] |}.

Definition sql_step7 : cell :=
  {| cell_name := "sql_step7"; cell_language := SQL;
     cell_statements :=
       [ SelectValue
           (Concat (Concat (Concat (Concat
              (Literal "https://app.snowflake.com/")
              (Function "CURRENT_ORGANIZATION_NAME"))
              (Literal "/"))
              (Function "CURRENT_ACCOUNT_NAME"))
              (Literal "/#/studio/analyst/databases/<MDT3_DEFAULT_DATABASE##>/schemas/DEFAULT_SCHEMA/semanticView/TPCDS_SEMANTIC_VIEW_SM/edit"))
           "RESULT" ] |}.

Definition py_link_cell : cell :=
  {| cell_name := "py_link"; cell_language := Python; cell_statements := [] |}.

Definition sql_step8 : cell :=
  {| cell_name := "sql_step8"; cell_language := SQL;
     cell_statements :=
       [ SelectFromSemanticView
           {| q_view := "TPCDS_SEMANTIC_VIEW_SM";
              q_dimensions := [ ("Item", "Brand"); ("Item", "Category");
                                ("Date", "Year"); ("Date", "Month");
                                ("Store", "State") ];
              q_metrics := [ ("StoreSales", "TotalSalesQuantity") ];
              q_where := [ {| c_table := "Date"; c_name := "Year"; c_literal := "2002" |};
                           {| c_table := "Date"; c_name := "Month"; c_literal := "12" |};
                           {| c_table := "Store"; c_name := "State"; c_literal := "TX" |};
                           {| c_table := "Item"; c_name := "Category"; c_literal := "Books" |} ];
              q_order_by_desc := "TotalSalesQuantity";
              q_limit := Some 10%nat |} ] |}.

Definition cell1 : cell :=
  {| cell_name := "cell1"; cell_language := SQL;
     cell_statements :=
       [ SelectFromSemanticView
           {| q_view := "TPCDS_SEMANTIC_VIEW_SM";
              q_dimensions := [ ("Item", "Brand"); ("Item", "Category");
                                ("Date", "Year"); ("Date", "Month");
                                ("Store", "State") ];
              q_metrics := [ ("StoreSales", "TotalSalesQuantity") ];
              q_where := [ {| c_table := "Date"; c_name := "Year"; c_literal := "2002" |};
                           {| c_table := "Date"; c_name := "Month"; c_literal := "12" |};
                           {| c_table := "Item"; c_name := "Category"; c_literal := "Books" |} ];
              q_order_by_desc := "TotalSalesQuantity";
              q_limit := None |} ] |}.

Definition df_cell : cell :=
  {| cell_name := "df"; cell_language := Python; cell_statements := [] |}.

Definition py_visualization_cell : cell :=
  {| cell_name := "py_visualization"; cell_language := Python; cell_statements := [] |}.

Definition py_dashboard_cell : cell :=
  {| cell_name := "py_dashboard"; cell_language := Python; cell_statements := [] |}.

(** The code cells, top to bottom. *)
Definition cells : list cell :=
  [ sql_step3; sql_step4; sql_step5; sql_step6; sql_step7; py_link_cell;
    sql_step8; cell1; df_cell; py_visualization_cell; py_dashboard_cell ].

Definition statements : list statement := flat_map cell_statements cells.

(** *** Statement forms *)

Inductive form :=
| USE_ROLE | USE_DATABASE | USE_SCHEMA | SHOW_VIEWS
| CREATE_OR_REPLACE_SEMANTIC_VIEW | SHOW_SEMANTIC_VIEWS | DESC_SEMANTIC_VIEW
| SELECT_FROM_RESULT | SELECT_VALUE | SELECT_FROM_SEMANTIC_VIEW.

Definition form_of (s : statement) : form :=
  match s with
  | UseRole _ => USE_ROLE
  | UseDatabase _ => USE_DATABASE
  | UseSchema _ => USE_SCHEMA
  | ShowViews => SHOW_VIEWS
  | CreateOrReplaceSemanticView _ => CREATE_OR_REPLACE_SEMANTIC_VIEW
  | ShowSemanticViews => SHOW_SEMANTIC_VIEWS
  | DescSemanticView _ => DESC_SEMANTIC_VIEW
  | SelectFromResult _ => SELECT_FROM_RESULT
  | SelectValue _ _ => SELECT_VALUE
  | SelectFromSemanticView _ => SELECT_FROM_SEMANTIC_VIEW
  end.

(** The forms the specification lists as the SQL surface consumed. *)
Definition listed_form (f : form) : bool :=
  match f with
  | USE_DATABASE | USE_SCHEMA | SHOW_VIEWS | CREATE_OR_REPLACE_SEMANTIC_VIEW
  | SHOW_SEMANTIC_VIEWS | DESC_SEMANTIC_VIEW | SELECT_FROM_SEMANTIC_VIEW => true
  | USE_ROLE | SELECT_FROM_RESULT | SELECT_VALUE => false
  end.

(** *** Effect on the warehouse *)

(** A semantic view stored in the catalog under the database and schema that
    were current when it was created. *)
Record catalog_entry := {
  e_database : option string;
  e_schema : option string;
  e_view : semantic_view
}.

Record warehouse := {
  w_role : option string;
  w_database : option string;
  w_schema : option string;
  w_semantic_views : list catalog_entry
}.

Definition option_ident_eqb (a b : option string) : bool :=
  match a, b with
  | Some x, Some y => ident_eqb x y
  | None, None => true
  | _, _ => false
  end.

Definition same_object (w : warehouse) (v : semantic_view) (e : catalog_entry) : bool :=
  option_ident_eqb (e_database e) (w_database w) &&
  option_ident_eqb (e_schema e) (w_schema w) &&
  ident_eqb (sv_name (e_view e)) (sv_name v).

Definition create_or_replace (w : warehouse) (v : semantic_view) : list catalog_entry :=
  {| e_database := w_database w; e_schema := w_schema w; e_view := v |}
  :: filter (fun e => negb (same_object w v e)) (w_semantic_views w).

Definition exec (s : statement) (w : warehouse) : warehouse :=
  match s with
  | UseRole r =>
      {| w_role := Some r; w_database := w_database w; w_schema := w_schema w;
         w_semantic_views := w_semantic_views w |}
  | UseDatabase d =>
      {| w_role := w_role w; w_database := Some d; w_schema := Some "PUBLIC";
         w_semantic_views := w_semantic_views w |}
  | UseSchema sc =>
      {| w_role := w_role w; w_database := w_database w; w_schema := Some sc;
         w_semantic_views := w_semantic_views w |}
  | CreateOrReplaceSemanticView v =>
      {| w_role := w_role w; w_database := w_database w; w_schema := w_schema w;
         w_semantic_views := create_or_replace w v |}
  | ShowViews | ShowSemanticViews | DescSemanticView _
  | SelectFromResult _ | SelectValue _ _ | SelectFromSemanticView _ => w
  end.

Definition run (ss : list statement) (w : warehouse) : warehouse :=
  fold_left (fun w' s => exec s w') ss w.

Definition creates (s : statement) : bool :=
  match s with CreateOrReplaceSemanticView _ => true | _ => false end.

(** The semantic view a statement names, if it names one. [SHOW SEMANTIC
    VIEWS] lists every view of the current database, this one included. *)
Definition refers_to (s : statement) : option string :=
  match s with
  | CreateOrReplaceSemanticView v => Some (sv_name v)
  | DescSemanticView n => Some n
  | SelectFromSemanticView q => Some (q_view q)
  | _ => None
  end.

Definition read_only (s : statement) : bool :=
  match s with
  | ShowViews | ShowSemanticViews | DescSemanticView _
  | SelectFromResult _ | SelectValue _ _ | SelectFromSemanticView _ => true
  | _ => false
  end.

End Notebook.

(** ** The pandas operations the Streamlit cells call

    pandas and numpy are libraries the notebook imports; each operation below
    is written after the library's documented behaviour, with the defaults
    the cells rely on ([sort=True], [dropna=True], [skipna=True]). *)

Module Pandas.

(** A Python exception, by class and message. *)
Inductive exn :=
| NameError (name : string)
| TypeError (what : string)
| KeyError (key : string)
| ValueError (message : string).

Inductive result (A : Type) :=
| Ok (a : A)
| Raise (e : exn).
Arguments Ok {A} a.
Arguments Raise {A} e.

(** A number as the cells print it: a [numpy.float64] or an integer, given by
    the rational it stands for, not-a-number, or an infinity with its sign.
    The sign of a zero is not kept. *)
Inductive num :=
| NaN
| Inf (positive : bool)
| Fin (q : Q).

(** *** 64-bit integers

    The metric column is an [int64] column: its arithmetic wraps around
    silently. [wrap64 z] is the [int64] that holds [z]. *)
Definition wrap64 (z : Z) : Z := ((z + 2 ^ 63) mod 2 ^ 64 - 2 ^ 63)%Z.

(** The sum of the values as integers, without wrap-around. *)
Definition exact_sum (xs : list Z) : Z := fold_right Z.add 0%Z xs.

(** The sum of the absolute values. *)
Definition magnitude (xs : list Z) : Z :=
  fold_right (fun x acc => (Z.abs x + acc)%Z) 0%Z xs.

(** [Series.sum()] of an [int64] column: the values are added one after the
    other in [int64]; an empty column sums to 0. *)
Definition sum (xs : list Z) : Z :=
  fold_left (fun acc x => wrap64 (acc + x)) xs 0%Z.

(** *** 64-bit floats

    [round64 q] is the [float64] nearest to [q] (ties to the even
    significand): 53 bits of significand, exponents down to the subnormal
    step [2^-1074], infinity from [2^1024] on. *)
Definition below_pow2 (a b : positive) (k : Z) : bool :=
  if (0 <=? k)%Z then (Zpos a <? Zpos b * 2 ^ k)%Z
  else (Zpos a * 2 ^ (- k) <? Zpos b)%Z.

(** The largest [k] with [2^k <= a/b]. *)
Definition log2_floor (a b : positive) : Z :=
  let k := (Z.log2 (Zpos a) - Z.log2 (Zpos b))%Z in
  if below_pow2 a b k then (k - 1)%Z else k.

(** [n/d] rounded to the nearest integer, a tie going to the even one. *)
Definition round_half_even (n d : Z) : Z :=
  let q := (n / d)%Z in
  match (2 * (n mod d) ?= d)%Z with
  | Lt => q
  | Gt => (q + 1)%Z
  | Eq => if Z.even q then q else (q + 1)%Z
  end.

Definition round64_pos (a b : positive) : option Q :=
  let e := Z.max (log2_floor a b - 52) (-1074) in
  if (0 <=? e)%Z then
    let m := round_half_even (Zpos a) (Zpos b * 2 ^ e) in
    if (2 ^ 1024 <=? m * 2 ^ e)%Z then None else Some (inject_Z (m * 2 ^ e))
  else
    Some (Qred (round_half_even (Zpos a * 2 ^ (- e)) (Zpos b)
                # Z.to_pos (2 ^ (- e)))).

Definition round64 (q : Q) : num :=
  match Qnum q with
  | Z0 => Fin 0
  | Zpos a =>
      match round64_pos a (Qden q) with
      | Some r => Fin r
      | None => Inf true
      end
  | Zneg a =>
      match round64_pos a (Qden q) with
      | Some r => Fin (Qopp r)
      | None => Inf false
      end
  end.

Definition is_positive (q : Q) : bool :=
  match (q ?= 0)%Q with Lt => false | _ => true end.

(** Division and multiplication of two [float64] values. *)
Definition float_div (x y : num) : num :=
  match x, y with
  | NaN, _ | _, NaN => NaN
  | Inf _, Inf _ => NaN
  | Inf s, Fin r => Inf (if is_positive r then s else negb s)
  | Fin _, Inf _ => Fin 0
  | Fin q, Fin r =>
      match (r ?= 0)%Q with
      | Eq => match (q ?= 0)%Q with
              | Eq => NaN
              | Gt => Inf true
              | Lt => Inf false
              end
      | _ => round64 (q / r)
      end
  end.

Definition float_mul (x y : num) : num :=
  match x, y with
  | NaN, _ | _, NaN => NaN
  | Inf s, Inf t => Inf (Bool.eqb s t)
  | Inf s, Fin r | Fin r, Inf s =>
      match (r ?= 0)%Q with
      | Eq => NaN
      | Gt => Inf s
      | Lt => Inf (negb s)
      end
  | Fin q, Fin r => round64 (q * r)
  end.

(** [Series.mean()] of an [int64] column: the values are summed as floats
    and the sum is divided by the number of rows, one float division;
    not-a-number on an empty column. The float sum and the count are taken as
    the exact sum and the exact count, which they are while the absolute
    values add up to at most [2^53] and there are at most [2^53] rows; beyond
    that the sum the code divides depends on the order in which the library
    adds. *)
Definition mean (xs : list Z) : num :=
  match xs with
  | [] => NaN
  | _ :: _ => round64 (exact_sum xs # Pos.of_nat (List.length xs))
  end.

(** [Series.max()]: not-a-number on an empty series. *)
Definition max (xs : list Z) : num :=
  match xs with
  | [] => NaN
  | x :: xs' => Fin (inject_Z (fold_left Z.max xs' x))
  end.

(** The first position holding the largest value, from a current best. *)
Fixpoint argmax_from {K : Type} (best : K * Z) (s : list (K * Z)) : K * Z :=
  match s with
  | [] => best
  | (k, v) :: s' =>
      if (v >? snd best)%Z then argmax_from (k, v) s' else argmax_from best s'
  end.

(** [Series.idxmax()]: the index label of the first occurrence of the
    maximum; raises [ValueError] on an empty series. *)
Definition idxmax {K : Type} (s : list (K * Z)) : result K :=
  match s with
  | [] => Raise (ValueError "attempt to get argmax of an empty sequence")
  | kv :: s' => Ok (fst (argmax_from kv s'))
  end.

(** One row of a group-by: add [v] to the group labelled [k], keeping the
    labels in ascending order ([groupby] sorts its keys). The totals are
    [int64] values: a value is read as the [int64] that holds it and the
    addition wraps around. *)
Fixpoint add_to_group (k : string) (v : Z) (g : list (string * Z)) : list (string * Z) :=
  match g with
  | [] => [(k, wrap64 v)]
  | (k', s) :: g' =>
      match String.compare k k' with
      | Eq => (k', wrap64 (s + v)) :: g'
      | Lt => (k, wrap64 v) :: g
      | Gt => (k', s) :: add_to_group k v g'
      end
  end.

(** [frame.groupby(key)[val].sum()]: rows whose key is missing are dropped
    ([dropna=True]), the others are summed per key. *)
Definition groupby_sum {R : Type} (key : R -> option string) (val : R -> Z)
    (frame : list R) : list (string * Z) :=
  fold_left (fun g r => match key r with
                        | Some k => add_to_group k (val r) g
                        | None => g
                        end) frame [].

Definition option_string_eqb (a b : option string) : bool :=
  match a, b with
  | Some x, Some y => String.eqb x y
  | None, None => true
  | _, _ => false
  end.

(** [Series.unique()]: the distinct values in order of first appearance; a
    missing value is one of them. *)
Definition unique (xs : list (option string)) : list (option string) :=
  fold_left (fun seen x => if existsb (option_string_eqb x) seen then seen
                           else seen ++ [x]) xs [].

(** [str.title()] on ASCII text: a letter that follows a letter is lower-cased,
    any other letter is upper-cased. *)
Definition is_letter (c : ascii) : bool :=
  let n := nat_of_ascii c in
  ((65 <=? n)%nat && (n <=? 90)%nat) || ((97 <=? n)%nat && (n <=? 122)%nat).

Definition downcase (c : ascii) : ascii :=
  let n := nat_of_ascii c in
  if (65 <=? n)%nat && (n <=? 90)%nat then ascii_of_nat (n + 32) else c.

Fixpoint title_from (after_letter : bool) (s : string) : string :=
  match s with
  | EmptyString => EmptyString
  | String c s' =>
      String (if after_letter then downcase c else upcase c)
             (title_from (is_letter c) s')
  end.

Definition title (s : string) : string := title_from false s.

(** [(avg_sales / total_sales) * 100] on numpy scalars: the [int64] total
    is converted to a float, then one float division and one float
    multiplication; a zero divisor gives not-a-number or an infinity, with a
    warning and no exception. *)
Definition percent_of (x : num) (total : Z) : num :=
  float_mul (float_div x (round64 (inject_Z total))) (Fin 100).

(** *** Vocabulary for stating what a group-by returns *)

(** Order of two rows of a grouped table by label. *)
Definition key_lt (a b : string * Z) : Prop :=
  String.compare (fst a) (fst b) = Lt.

(** The total of [val] over the rows of the frame whose key is [k]. *)
Definition group_total {R : Type} (key : R -> option string) (val : R -> Z)
    (k : string) (frame : list R) : Z :=
  sum (map val (filter (fun r => option_string_eqb (key r) (Some k)) frame)).

(** The total a grouped table holds under label [k]. *)
Fixpoint total_under (k : string) (g : list (string * Z)) : Z :=
  match g with
  | [] => 0%Z
  | (k', s) :: g' => ((if String.eqb k' k then s else 0) + total_under k g')%Z
  end.

(** The rows whose key is present. *)
Definition keyed {R : Type} (key : R -> option string) (frame : list R) : list R :=
  filter (fun r => match key r with Some _ => true | None => false end) frame.

End Pandas.

(** ** The two Streamlit cells *)

Module Apps.
Import Pandas.

(** A row of the result of [cell1]: the five dimensions and the metric of the
    query. A dimension can be missing (SQL [NULL]). The metric is
    [SUM(SS_QUANTITY)], an integer quantity held in an [int64] column: it is
    taken as present in every row. *)
Record row := {
  BRAND : option string;
  CATEGORY : option string;
  YEAR : option Z;
  MONTH : option Z;
  STATE : option string;
  TOTALSALESQUANTITY : Z
}.

Definition dataframe := list row.

(** A formatted string: literal text, a number under a format specification,
    a length, or a concatenation. Digits are not computed. *)
Inductive text :=
| Str (s : string)
| Format (spec : string) (x : num)
| FormatLen (n : nat)
| Cat (a b : text).

(** What a cell puts on the page. *)
Inductive element :=
| Title (s : string)
| Selectbox (label : string) (options : list string) (index : nat)
| Columns (n : nat)
| Metric (column : nat) (label : string) (value : text) (delta : option text)
| Subheader (s : string)
| BarChart (data : list (string * Z))
| Checkbox (label : string)
| DataFrame (index_name : string) (data : list (string * Z)).

(** The values the cells bind to variables. [VGrouped key indexed rows] is the
    two-column table of a group-by: the key column [key] and the column
    [TOTALSALESQUANTITY], with [key] as the index after [set_index] and as an
    ordinary column after [reset_index]. *)
Inductive value :=
| VFrame (d : dataframe)
| VGrouped (key : string) (indexed : bool) (rows : list (string * Z))
| VStr (s : string)
| VInt (z : Z)
| VNum (x : num)
| VColumn (i : nat).

(** The notebook's variable bindings. *)
Definition namespace := string -> option value.

Definition bind_var (x : string) (v : value) (ns : namespace) : namespace :=
  fun y => if String.eqb y x then Some v else ns y.

(** What the user has set on the page when the cell runs. *)
Inductive grouping := ByBrand | ByState.

Record widgets := {
  selected : grouping;
  show_data_table : bool
}.

Definition position (g : grouping) : nat :=
  match g with ByBrand => 0%nat | ByState => 1%nat end.

(** *** A cell as a computation over the bindings and the page *)

Record state := {
  bindings : namespace;
  page : list element
}.

Definition M (A : Type) : Type := state -> result A * state.

Definition ret {A : Type} (a : A) : M A := fun s => (Ok a, s).

Definition bind {A B : Type} (m : M A) (k : A -> M B) : M B :=
  fun s => match m s with
           | (Ok a, s') => k a s'
           | (Raise e, s') => (Raise e, s')
           end.

Notation "x <- m ;; k" := (bind m (fun x => k))
  (at level 61, m at next level, right associativity).
Notation "m ;; k" := (bind m (fun _ => k))
  (at level 61, right associativity).

Definition raise {A : Type} (e : exn) : M A := fun s => (Raise e, s).

Definition lift {A : Type} (r : result A) : M A := fun s => (r, s).

Definition assign (x : string) (v : value) : M unit :=
  fun s => (Ok tt, {| bindings := bind_var x v (bindings s); page := page s |}).

Definition emit (e : element) : M unit :=
  fun s => (Ok tt, {| bindings := bindings s; page := page s ++ [e] |}).

Definition var (x : string) : M value :=
  fun s => match bindings s x with
           | Some v => (Ok v, s)
           | None => (Raise (NameError x), s)
           end.

Definition frame_var (x : string) : M dataframe :=
  v <- var x ;;
  match v with
  | VFrame d => ret d
  | _ => raise (TypeError x)
  end.

(** [grouped.reset_index()] and [table.set_index(key)]. *)
Definition reset_index (key : string) (rows : list (string * Z)) : value :=
  VGrouped key false rows.

Definition set_index (key : string) (v : value) : M value :=
  match v with
  | VGrouped key' false rows =>
      if String.eqb key key' then ret (VGrouped key true rows)
      else raise (KeyError key)
  | _ => raise (KeyError key)
  end.

(** [table['TOTALSALESQUANTITY']] of a table indexed by its key column: the
    series of sums labelled by key. *)
Definition quantity_series (x : string) : M (list (string * Z)) :=
  v <- var x ;;
  match v with
  | VGrouped _ true rows => ret rows
  | _ => raise (TypeError x)
  end.

Definition st_selectbox (label : string) (options : list string) (index : nat)
    (w : widgets) : M string :=
  emit (Selectbox label options index) ;;
  ret (nth (position (selected w)) options "").

Definition st_checkbox (label : string) (w : widgets) : M bool :=
  emit (Checkbox label) ;;
  ret (show_data_table w).

Definition int_var (x : string) : M Z :=
  v <- var x ;;
  match v with
  | VInt z => ret z
  | _ => raise (TypeError x)
  end.

Definition num_var (x : string) : M num :=
  v <- var x ;;
  match v with
  | VNum n => ret n
  | VInt z => ret (Fin (inject_Z z))
  | _ => raise (TypeError x)
  end.

Definition str_var (x : string) : M string :=
  v <- var x ;;
  match v with
  | VStr t => ret t
  | _ => raise (TypeError x)
  end.

(** [st.dataframe(table)] of a table indexed by its key column. *)
Definition st_dataframe (x : string) : M unit :=
  v <- var x ;;
  match v with
  | VGrouped key true rows => emit (DataFrame key rows)
  | _ => raise (TypeError x)
  end.

(** *** App 1: cell [py_visualization] *)

Definition py_visualization (w : widgets) : M unit :=
  emit (Title "📊 Sales Data Interactive Visualization") ;;
  group_by <- st_selectbox "Select grouping option:" ["BRAND"; "STATE"] 0 w ;;
  assign "group_by" (VStr group_by) ;;
  (if String.eqb group_by "BRAND" then
     df <- frame_var "df" ;;
     assign "grouped_data"
       (reset_index "BRAND" (groupby_sum BRAND TOTALSALESQUANTITY df)) ;;
     grouped_data <- var "grouped_data" ;;
     grouped_data <- set_index "BRAND" grouped_data ;;
     assign "grouped_data" grouped_data ;;
     assign "chart_title" (VStr "Total Sales Quantity by Brand")
   else
     df <- frame_var "df" ;;
     assign "grouped_data"
       (reset_index "STATE" (groupby_sum STATE TOTALSALESQUANTITY df)) ;;
     grouped_data <- var "grouped_data" ;;
     grouped_data <- set_index "STATE" grouped_data ;;
     assign "grouped_data" grouped_data ;;
     assign "chart_title" (VStr "Total Sales Quantity by State")) ;;
  chart_title <- str_var "chart_title" ;;
  emit (Subheader chart_title) ;;
  series <- quantity_series "grouped_data" ;;
  emit (BarChart series) ;;
  show <- st_checkbox "Show data table" w ;;
  if show then
    emit (Subheader "Grouped Data") ;;
    st_dataframe "grouped_data"
  else ret tt.

(** *** App 2: cell [py_dashboard] *)

Definition py_dashboard (w : widgets) : M unit :=
  emit (Title "📊 Sales Data Dashboard") ;;
  group_by <- st_selectbox "Select grouping option:" ["BRAND"; "STATE"] 0 w ;;
  assign "group_by" (VStr group_by) ;;
  (if String.eqb group_by "BRAND" then
     df <- frame_var "df" ;;
     assign "grouped_data"
       (reset_index "BRAND" (groupby_sum BRAND TOTALSALESQUANTITY df)) ;;
     grouped_data <- var "grouped_data" ;;
     grouped_data <- set_index "BRAND" grouped_data ;;
     assign "grouped_data" grouped_data ;;
     assign "chart_title" (VStr "Total Sales Quantity by Brand")
   else
     df <- frame_var "df" ;;
     assign "grouped_data"
       (reset_index "STATE" (groupby_sum STATE TOTALSALESQUANTITY df)) ;;
     grouped_data <- var "grouped_data" ;;
     grouped_data <- set_index "STATE" grouped_data ;;
     assign "grouped_data" grouped_data ;;
     assign "chart_title" (VStr "Total Sales Quantity by State")) ;;
  df <- frame_var "df" ;;
  assign "total_sales" (VInt (sum (map TOTALSALESQUANTITY df))) ;;
  df <- frame_var "df" ;;
  assign "avg_sales" (VNum (mean (map TOTALSALESQUANTITY df))) ;;
  series <- quantity_series "grouped_data" ;;
  assign "top_performer" (VNum (max (map snd series))) ;;
  series <- quantity_series "grouped_data" ;;
  name <- lift (idxmax series) ;;
  assign "top_performer_name" (VStr name) ;;
  emit (Columns 3) ;;
  assign "col1" (VColumn 0) ;;
  assign "col2" (VColumn 1) ;;
  assign "col3" (VColumn 2) ;;
  total_sales <- num_var "total_sales" ;;
  emit (Metric 0 "Total Sales Quantity" (Format ",.0f" total_sales) None) ;;
  (if String.eqb group_by "BRAND" then
     avg_sales <- num_var "avg_sales" ;;
     total_sales <- int_var "total_sales" ;;
     emit (Metric 1 "Average Sales per Brand" (Format ",.0f" avg_sales)
             (Some (Cat (Format ".3f" (percent_of avg_sales total_sales))
                        (Str "% of total"))))
   else
     avg_sales <- num_var "avg_sales" ;;
     df <- frame_var "df" ;;
     emit (Metric 1 "Average Sales per State" (Format ",.0f" avg_sales)
             (Some (Cat (FormatLen (List.length (unique (map STATE df))))
                        (Str " state(s)"))))) ;;
  top_performer <- num_var "top_performer" ;;
  top_performer_name <- str_var "top_performer_name" ;;
  emit (Metric 2 (String.append "Top " (title group_by))
          (Format ",.0f" top_performer) (Some (Str top_performer_name))) ;;
  chart_title <- str_var "chart_title" ;;
  emit (Subheader chart_title) ;;
  series <- quantity_series "grouped_data" ;;
  emit (BarChart series) ;;
  show <- st_checkbox "Show data table" w ;;
  if show then
    emit (Subheader "Grouped Data") ;;
    st_dataframe "grouped_data"
  else ret tt.

(** Running a cell from given bindings on an empty page. *)
Definition run_cell (c : widgets -> M unit) (w : widgets) (ns : namespace)
    : result unit * state :=
  c w {| bindings := ns; page := [] |}.

Definition outcome (r : result unit * state) : result unit := fst r.
Definition rendered (r : result unit * state) : list element := page (snd r).
Definition final (r : result unit * state) : namespace := bindings (snd r).

(** The grouping column the selection names, as the cells branch on it. *)
Definition key_of (g : grouping) : row -> option string :=
  match g with ByBrand => BRAND | ByState => STATE end.

Definition key_name (g : grouping) : string :=
  match g with ByBrand => "BRAND" | ByState => "STATE" end.

Definition grouped (g : grouping) (d : dataframe) : list (string * Z) :=
  groupby_sum (key_of g) TOTALSALESQUANTITY d.

(** The metric cards among the page's elements. *)
Definition metrics (p : list element) : list element :=
  filter (fun e => match e with Metric _ _ _ _ => true | _ => false end) p.

(** The data passed to [st.bar_chart]. *)
Definition charts (p : list element) : list (list (string * Z)) :=
  flat_map (fun e => match e with BarChart d => [d] | _ => [] end) p.

Definition no_bindings : namespace := fun _ => None.

(** *** What the cells show, by selection *)

(** The chart title each branch assigns. *)
Definition chart_title_of (g : grouping) : string :=
  match g with
  | ByBrand => "Total Sales Quantity by Brand"
  | ByState => "Total Sales Quantity by State"
  end.

(** The label and the delta of the second metric card, as the two branches
    under [with col2:] write them. *)
Definition average_label (g : grouping) : string :=
  match g with
  | ByBrand => "Average Sales per Brand"
  | ByState => "Average Sales per State"
  end.

Definition average_delta (g : grouping) (d : dataframe) : text :=
  match g with
  | ByBrand =>
      Cat (Format ".3f" (percent_of (mean (map TOTALSALESQUANTITY d))
                                    (sum (map TOTALSALESQUANTITY d))))
          (Str "% of total")
  | ByState =>
      Cat (FormatLen (List.length (unique (map STATE d)))) (Str " state(s)")
  end.

End Apps.

(** ** Sample result tables *)

Module Samples.
Import Pandas Apps.

Definition books (brand state : option string) (quantity : Z) : row :=
  {| BRAND := brand; CATEGORY := Some "Books"; YEAR := Some 2002%Z;
     MONTH := Some 12%Z; STATE := state; TOTALSALESQUANTITY := quantity |}.

(** One row whose brand is missing. *)
Definition no_brand : dataframe := [ books None (Some "TX") 1 ].

(** The same brand total, held by one row and by two. *)
Definition one_row : dataframe := [ books (Some "amalgamalg #1") (Some "TX") 2 ].

Definition two_rows : dataframe :=
  [ books (Some "amalgamalg #1") (Some "TX") 1;
    books (Some "amalgamalg #1") (Some "TX") 1 ].

(** Two brands over two states, with a tie between the brand totals. *)
Definition mixed : dataframe :=
  [ books (Some "scholarmaxi #2") (Some "TX") 5;
    books (Some "amalgamalg #1") (Some "CA") 7;
    books (Some "scholarmaxi #2") (Some "CA") 5;
    books (Some "amalgamalg #1") (Some "TX") 3 ].

Definition by_brand_shown : widgets :=
  {| selected := ByBrand; show_data_table := true |}.

Definition by_state_hidden : widgets :=
  {| selected := ByState; show_data_table := false |}.

(** Bindings left by earlier cells: [df] and, from a previous run of a
    Streamlit cell, stale values of the variables it assigns. *)
Definition fresh (d : dataframe) : namespace :=
  bind_var "df" (VFrame d) no_bindings.

Definition stale (d : dataframe) : namespace :=
  bind_var "grouped_data" (VGrouped "STATE" true [("TX", 99%Z)])
    (bind_var "top_performer_name" (VStr "TX")
       (bind_var "link" (VStr "https://app.snowflake.com/")
          (bind_var "df" (VFrame d) no_bindings))).

End Samples.

(** ** Ranges of the quantities *)

Module Ranges.
Import Pandas Apps.

(** The range in which the arithmetic of the cells is exact: no [int64] sum
    wraps around, and a [float64] holds every sum and the row count. *)
Definition exact_range (d : dataframe) : Prop :=
  (magnitude (map TOTALSALESQUANTITY d) <= 2 ^ 53)%Z /\
  (Z.of_nat (List.length d) <= 2 ^ 53)%Z.

(** Two rows of one brand whose quantities add up to [2^63]. *)
Definition two_large_rows : dataframe :=
  [ Samples.books (Some "amalgamalg #1") (Some "TX") (2 ^ 62);
    Samples.books (Some "amalgamalg #1") (Some "TX") (2 ^ 62) ].

End Ranges.

(** ** The queries against the declaration, and rows with a missing key *)

Module Queries.
Import SemanticView Notebook Pandas Apps.

(** The [SELECT ... FROM SEMANTIC_VIEW] statements of the notebook, in order:
    the query of cell [sql_step8] and the query of cell [cell1]. *)
Definition semantic_queries : list semantic_query :=
  flat_map (fun s => match s with
                     | SelectFromSemanticView q => [q]
                     | _ => []
                     end) statements.

Definition names (n : string * string) (m : member) : bool :=
  ident_eqb (m_table m) (fst n) && ident_eqb (m_name m) (snd n).

(** The declared dimensions, and the declared metrics, a qualified name of a
    query stands for. *)
Definition find_dimension (sv : semantic_view) (n : string * string) : list member :=
  filter (names n) (sv_dimensions sv).

Definition find_metric (sv : semantic_view) (n : string * string) : list member :=
  filter (names n) (sv_metrics sv).

(** The columns of a query's result: one per dimension, then one per metric,
    each under the member's name. *)
Definition result_columns (q : semantic_query) : list string :=
  map (fun n => upper (snd n)) (q_dimensions q ++ q_metrics q).

(** The table of a queried dimension is the metric's table or one it
    references. *)
Definition joins (sv : semantic_view) (metric dimension : string * string) : bool :=
  ident_eqb (fst dimension) (fst metric) ||
  existsb (fun r => ident_eqb (r_table r) (fst metric) &&
                    ident_eqb (r_ref_table r) (fst dimension))
          (sv_relationships sv).

Definition check_query (sv : semantic_view) (q : semantic_query) : bool :=
  ident_eqb (q_view q) (sv_name sv) &&
  forallb (fun n => match find_dimension sv n with [_] => true | _ => false end)
          (q_dimensions q) &&
  forallb (fun n => match find_metric sv n with [_] => true | _ => false end)
          (q_metrics q) &&
  forallb (fun c => existsb (fun n => ident_eqb (fst n) (c_table c) &&
                                      ident_eqb (snd n) (c_name c))
                            (q_dimensions q))
          (q_where q) &&
  existsb (fun n => ident_eqb (snd n) (q_order_by_desc q)) (q_metrics q) &&
  forallb (fun m => forallb (joins sv m) (q_dimensions q)) (q_metrics q).

(** What [check_query] decides: the query names the view; each of its
    dimensions and metrics names exactly one declared dimension or metric;
    each filter is on a dimension of the query; the ordering column is a metric
    of the query; and every dimension can be joined to every metric. *)
Definition resolves (sv : semantic_view) (q : semantic_query) : Prop :=
  ident_eqb (q_view q) (sv_name sv) = true /\
  Forall (fun n => exists! m, In m (sv_dimensions sv) /\ names n m = true)
         (q_dimensions q) /\
  Forall (fun n => exists! m, In m (sv_metrics sv) /\ names n m = true)
         (q_metrics q) /\
  Forall (fun c => exists n, In n (q_dimensions q) /\
                             ident_eqb (fst n) (c_table c) = true /\
                             ident_eqb (snd n) (c_name c) = true)
         (q_where q) /\
  (exists n, In n (q_metrics q) /\ ident_eqb (snd n) (q_order_by_desc q) = true) /\
  Forall (fun m => Forall (fun n => joins sv m n = true) (q_dimensions q))
         (q_metrics q).

(** The stored entry the notebook's CREATE OR REPLACE leaves. *)
Definition stored_view : catalog_entry :=
  {| e_database := Some "<mdt3_default_database##>";
     e_schema := Some "default_schema";
     e_view := TPCDS_SEMANTIC_VIEW_SM |}.

(** Whether the row lacks the column the selection groups by. *)
Definition key_missing (g : grouping) (r : row) : bool :=
  match key_of g r with
  | Some _ => false
  | None => true
  end.

(** The order of two labels, as [groupby] sorts them. *)
Definition label_le (a b : string) : Prop :=
  a = b \/ String.compare a b = Lt.

End Queries.

(** * Properties *)

Import SemanticView Notebook Pandas Apps Samples Ranges.

(** ** The declared schema *)

Lemma filter_singleton_unique {A : Type} (f : A -> bool) (l : list A) (x : A) :
  filter f l = [x] -> exists! y, In y l /\ f y = true.
Proof.
  intros Hf. exists x. split.
  - apply filter_In. rewrite Hf. now left.
  - intros y Hy. apply filter_In in Hy. rewrite Hf in Hy.
    destruct Hy as [Hy | []]. exact Hy.
Qed.

Lemma check_table_sound (sv : semantic_view) (a : string) :
  check_table sv a = true -> declared_once sv a.
Proof.
  unfold check_table, declared_once, find_table. intros H.
  destruct (filter _ _) as [| t [| t' l]] eqn:E; try discriminate.
  now apply (filter_singleton_unique _ _ t).
Qed.

Lemma check_own_column_sound (sv : semantic_view) (m : member) :
  check_own_column sv m = true -> own_column sv m.
Proof.
  unfold check_own_column, own_column. intros H.
  destruct (underlying sv m) as [| [t c] [| x l]]; try discriminate.
  apply String.eqb_eq in H. subst t. now exists c.
Qed.

Lemma check_own_column_complete (sv : semantic_view) (m : member) :
  own_column sv m -> check_own_column sv m = true.
Proof.
  unfold check_own_column, own_column. intros [c ->]. apply String.eqb_refl.
Qed.

Lemma check_one_column_sound (sv : semantic_view) (m : member) :
  check_one_column sv m = true -> one_column sv m.
Proof.
  unfold check_one_column, one_column. intros H.
  destruct (underlying sv m) as [| [t c] [| x l]]; try discriminate.
  exists t, c. split; [reflexivity |].
  apply orb_true_iff in H. destruct H as [H | H].
  - left. now apply String.eqb_eq.
  - right. apply existsb_exists in H. destruct H as [r [Hr H]].
    apply andb_true_iff in H. destruct H as [H1 H2].
    apply String.eqb_eq in H1, H2. exists r. repeat split; congruence.
Qed.

Section Ranked.
Variables (A : Type) (R : A -> A -> Prop) (rank : A -> nat).
Hypothesis rank_decreases : forall a b, R a b -> (rank b < rank a)%nat.

Lemma path_rank_decreases (a b : A) :
  clos_trans A R a b -> (rank b < rank a)%nat.
Proof.
  induction 1 as [a b Hab | a b c _ IH1 _ IH2].
  - now apply rank_decreases.
  - lia.
Qed.

Lemma ranked_acyclic (a : A) : ~ clos_trans A R a a.
Proof.
  intros H. apply path_rank_decreases in H. lia.
Qed.
End Ranked.

Lemma references_rank (a b : string) :
  references TPCDS_SEMANTIC_VIEW_SM a b -> (sales_rank b < sales_rank a)%nat.
Proof.
  intros [r [Hr [-> ->]]]. simpl in Hr.
  repeat (destruct Hr as [<- | Hr]; [vm_compute; lia |]). destruct Hr.
Qed.

Lemma declaration_valid_relationships :
  forallb (valid_relationship TPCDS_SEMANTIC_VIEW_SM)
          (sv_relationships TPCDS_SEMANTIC_VIEW_SM) = true.
Proof. vm_compute. reflexivity. Qed.

Lemma declaration_checks :
  forallb (fun m => check_table TPCDS_SEMANTIC_VIEW_SM (m_table m) &&
                    check_one_column TPCDS_SEMANTIC_VIEW_SM m)
          (members TPCDS_SEMANTIC_VIEW_SM) = true.
Proof. vm_compute. reflexivity. Qed.

Lemma declaration_names_once :
  Forall (named_once TPCDS_SEMANTIC_VIEW_SM) (members TPCDS_SEMANTIC_VIEW_SM).
Proof.
  unfold named_once. repeat (constructor; [vm_compute; reflexivity |]). constructor.
Qed.

Lemma declaration_own_columns :
  forallb (fun m => check_own_column TPCDS_SEMANTIC_VIEW_SM m ||
                    String.eqb (m_name m) "TOTALCOST")
          (members TPCDS_SEMANTIC_VIEW_SM) = true.
Proof. vm_compute. reflexivity. Qed.

(** C2, as worded, fails: the metric [STORESALES.TOTALCOST] is defined as
    [SUM(item.cost)], and the one column behind it, [I_WHOLESALE_COST], is a
    column of [ITEM], not of the table [STORESALES] that qualifies the metric. *)
Lemma totalcost_not_own_column :
  In TOTALCOST (members TPCDS_SEMANTIC_VIEW_SM) /\
  underlying TPCDS_SEMANTIC_VIEW_SM TOTALCOST = [("ITEM", "I_WHOLESALE_COST")] /\
  ~ (forall m, In m (members TPCDS_SEMANTIC_VIEW_SM) ->
       declared_once TPCDS_SEMANTIC_VIEW_SM (m_table m) /\
       own_column TPCDS_SEMANTIC_VIEW_SM m).
Proof.
  assert (Hin : In TOTALCOST (members TPCDS_SEMANTIC_VIEW_SM)).
  { unfold members. apply in_or_app. right. apply in_or_app. right.
    simpl. now left. }
  split; [exact Hin |]. split; [vm_compute; reflexivity |].
  intros H. destruct (H TOTALCOST Hin) as [_ Hown].
  apply check_own_column_complete in Hown. vm_compute in Hown. discriminate.
Qed.

(** C2, amended: every fact, dimension and metric is qualified by an alias
    that names exactly one table of the tables clause, its qualified name
    names no other member, every fact and dimension is a bare column, and
    every member comes down to exactly one column of a base table. That column
    belongs to the qualifying table, except for the metric TOTALCOST
    ([SUM(item.cost)]): its column is I_WHOLESALE_COST of ITEM, reached
    through the fact ITEM.COST, and STORESALES references ITEM. *)
Theorem members_resolve (m : member) :
  In m (members TPCDS_SEMANTIC_VIEW_SM) ->
  declared_once TPCDS_SEMANTIC_VIEW_SM (m_table m) /\
  named_once TPCDS_SEMANTIC_VIEW_SM m /\
  one_column TPCDS_SEMANTIC_VIEW_SM m /\
  (own_column TPCDS_SEMANTIC_VIEW_SM m \/
   (m_name m = "TOTALCOST" /\
    underlying TPCDS_SEMANTIC_VIEW_SM m = [("ITEM", "I_WHOLESALE_COST")])) /\
  (In m (sv_facts TPCDS_SEMANTIC_VIEW_SM ++ sv_dimensions TPCDS_SEMANTIC_VIEW_SM) ->
   bare_column m = true).
Proof.
  intros Hin.
  pose proof declaration_checks as Hc.
  rewrite forallb_forall in Hc. specialize (Hc m Hin).
  apply andb_true_iff in Hc. destruct Hc as [Ht Hone].
  pose proof declaration_names_once as Hn.
  rewrite Forall_forall in Hn.
  pose proof declaration_own_columns as Ho.
  rewrite forallb_forall in Ho. specialize (Ho m Hin).
  split; [now apply check_table_sound |].
  split; [now apply Hn |].
  split; [now apply check_one_column_sound |].
  split.
  - apply orb_true_iff in Ho. destruct Ho as [Ho | Ho].
    + left. now apply check_own_column_sound.
    + right. apply String.eqb_eq in Ho. split; [exact Ho |].
      clear - Hin Ho. unfold members in Hin. simpl in Hin.
      repeat (destruct Hin as [<- | Hin]; [first [discriminate Ho | vm_compute; reflexivity] |]).
      destruct Hin.
  - intros Hfd. clear - Hfd. simpl in Hfd.
    repeat (destruct Hfd as [<- | Hfd]; [reflexivity |]). destruct Hfd.
Qed.

Lemma members_resolve_witness :
  declared_once TPCDS_SEMANTIC_VIEW_SM (m_table TOTALCOST) /\
  named_once TPCDS_SEMANTIC_VIEW_SM TOTALCOST /\
  one_column TPCDS_SEMANTIC_VIEW_SM TOTALCOST /\
  (own_column TPCDS_SEMANTIC_VIEW_SM TOTALCOST \/
   (m_name TOTALCOST = "TOTALCOST" /\
    underlying TPCDS_SEMANTIC_VIEW_SM TOTALCOST = [("ITEM", "I_WHOLESALE_COST")])) /\
  (In TOTALCOST (sv_facts TPCDS_SEMANTIC_VIEW_SM ++ sv_dimensions TPCDS_SEMANTIC_VIEW_SM) ->
   bare_column TOTALCOST = true).
Proof.
  apply (members_resolve TOTALCOST).
  unfold members. apply in_or_app. right. apply in_or_app. right.
  simpl. left. reflexivity.
Defined.

(** C3: every relationship of the declaration is well formed, each of the
    five dimension tables CUSTOMER, DATE, DEMO, ITEM and STORE is reached from
    the sales table STORESALES along the relationships, and no table reaches
    itself: the graph of table references has no cycle. *)
Theorem star_join_paths :
  forallb (valid_relationship TPCDS_SEMANTIC_VIEW_SM)
          (sv_relationships TPCDS_SEMANTIC_VIEW_SM) = true /\
  dimension_tables TPCDS_SEMANTIC_VIEW_SM =
    ["CUSTOMER"; "DATE"; "DEMO"; "ITEM"; "STORE"] /\
  Forall (join_path TPCDS_SEMANTIC_VIEW_SM fact_table)
         (dimension_tables TPCDS_SEMANTIC_VIEW_SM) /\
  (forall t, ~ join_path TPCDS_SEMANTIC_VIEW_SM t t).
Proof.
  split; [exact declaration_valid_relationships |].
  split; [vm_compute; reflexivity |].
  split.
  - assert (Hstep : forall r, In r (sv_relationships TPCDS_SEMANTIC_VIEW_SM) ->
                      upper (r_table r) = fact_table ->
                      join_path TPCDS_SEMANTIC_VIEW_SM fact_table (upper (r_ref_table r))).
    { intros r Hr Hsrc. apply t_step. exists r. repeat split; auto. }
    change (dimension_tables TPCDS_SEMANTIC_VIEW_SM)
      with (map (fun r => upper (r_ref_table r)) (sv_relationships TPCDS_SEMANTIC_VIEW_SM)).
    apply Forall_forall. intros d Hd. apply in_map_iff in Hd.
    destruct Hd as [r [<- Hr]]. apply Hstep; [exact Hr |].
    simpl in Hr. repeat (destruct Hr as [<- | Hr]; [reflexivity |]). destruct Hr.
  - intros t. unfold join_path.
    apply (ranked_acyclic string _ sales_rank references_rank).
Qed.

(** C4, evaluated on the declaration: there are exactly five relationships,
    all from STORESALES (base table STORE_SALES), to the base tables CUSTOMER,
    DATE_DIM, CUSTOMER_DEMOGRAPHICS, ITEM and STORE, each from a column ending
    in _SK to the primary key of the referenced table. Four of them are
    many-to-one. The fifth, SALETOSTORE, is declared on SS_STORE_SK, which the
    tables clause declares the primary key of STORESALES itself, so by the
    declared keys that link is one-to-one. *)
Theorem relationship_cardinalities :
  map (fun r => (r_name r, base_of TPCDS_SEMANTIC_VIEW_SM (r_table r),
                 base_of TPCDS_SEMANTIC_VIEW_SM (r_ref_table r),
                 cardinality_of TPCDS_SEMANTIC_VIEW_SM r))
      (sv_relationships TPCDS_SEMANTIC_VIEW_SM) =
    [ ("SALESTOCUSTOMER", ["STORE_SALES"], ["CUSTOMER"], Some ManyToOne);
      ("SALESTODATE", ["STORE_SALES"], ["DATE_DIM"], Some ManyToOne);
      ("SALESTODEMO", ["STORE_SALES"], ["CUSTOMER_DEMOGRAPHICS"], Some ManyToOne);
      ("SALESTOITEM", ["STORE_SALES"], ["ITEM"], Some ManyToOne);
      ("SALETOSTORE", ["STORE_SALES"], ["STORE"], Some OneToOne) ] /\
  forallb (fun r => forallb (ends_with "_SK") (r_columns r ++ r_ref_columns r))
          (sv_relationships TPCDS_SEMANTIC_VIEW_SM) = true /\
  r_columns SALETOSTORE = t_primary_key STORESALES /\
  declared_key TPCDS_SEMANTIC_VIEW_SM (r_table SALETOSTORE) (r_columns SALETOSTORE) = true.
Proof.
  split; [vm_compute; reflexivity |].
  split; [vm_compute; reflexivity |].
  split; [reflexivity |].
  vm_compute. reflexivity.
Qed.

(** ** The SQL statements *)

Lemma exec_read_only (s : statement) (w : warehouse) :
  read_only s = true -> exec s w = w.
Proof.
  destruct s; simpl; intros H; try discriminate; reflexivity.
Qed.

Lemma run_read_only (ss : list statement) :
  forallb read_only ss = true -> forall w, run ss w = w.
Proof.
  induction ss as [| s ss IH]; simpl; intros H w.
  - reflexivity.
  - apply andb_true_iff in H. destruct H as [Hs Hss].
    unfold run in *. simpl. rewrite (exec_read_only s w Hs). now apply IH.
Qed.

Lemma exec_keeps_catalog (s : statement) (w : warehouse) :
  creates s = false -> w_semantic_views (exec s w) = w_semantic_views w.
Proof.
  destruct s; simpl; intros H; try discriminate; reflexivity.
Qed.

Lemma run_keeps_catalog (ss : list statement) :
  forallb (fun s => negb (creates s)) ss = true ->
  forall w, w_semantic_views (run ss w) = w_semantic_views w.
Proof.
  induction ss as [| s ss IH]; simpl; intros H w.
  - reflexivity.
  - apply andb_true_iff in H. destruct H as [Hs Hss].
    apply negb_true_iff in Hs.
    unfold run in *. simpl. rewrite (IH Hss). now apply exec_keeps_catalog.
Qed.

Lemma run_app (ss ts : list statement) (w : warehouse) :
  run (ss ++ ts) w = run ts (run ss w).
Proof. unfold run. apply fold_left_app. Qed.

(** C5, as worded, fails: the first statement of cell [sql_step4] is
    [use role accountadmin], and USE ROLE is not among the listed forms. *)
Lemma use_role_not_listed :
  In (UseRole "accountadmin") statements /\
  listed_form (form_of (UseRole "accountadmin")) = false /\
  ~ Forall (fun s => listed_form (form_of s) = true) statements.
Proof.
  assert (Hin : In (UseRole "accountadmin") statements).
  { unfold statements. simpl. tauto. }
  split; [exact Hin |]. split; [reflexivity |].
  intros H. rewrite Forall_forall in H. specialize (H _ Hin). discriminate.
Qed.

(** C5, amended: every SQL statement of the notebook is of a listed form (USE
    DATABASE, USE SCHEMA, SHOW VIEWS, CREATE OR REPLACE SEMANTIC VIEW, SHOW
    SEMANTIC VIEWS, DESC SEMANTIC VIEW, SELECT ... FROM SEMANTIC_VIEW(...)) or
    is one of three further statements: [use role accountadmin], the SELECT
    over [$1] chained to DESC SEMANTIC VIEW by the flow operator, and the
    SELECT without FROM that builds the Cortex Analyst link. *)
Theorem statement_forms :
  map form_of statements =
    [ USE_DATABASE; USE_SCHEMA; SHOW_VIEWS;
      USE_ROLE; CREATE_OR_REPLACE_SEMANTIC_VIEW;
      SHOW_SEMANTIC_VIEWS;
      DESC_SEMANTIC_VIEW; SELECT_FROM_RESULT;
      SELECT_VALUE;
      SELECT_FROM_SEMANTIC_VIEW;
      SELECT_FROM_SEMANTIC_VIEW ] /\
  Forall (fun s => listed_form (form_of s) = true \/
                   In (form_of s) [USE_ROLE; SELECT_FROM_RESULT; SELECT_VALUE])
         statements /\
  map form_of (filter (fun s => negb (listed_form (form_of s))) statements) =
    [ USE_ROLE; SELECT_FROM_RESULT; SELECT_VALUE ] /\
  Forall (fun c => cell_language c = Python -> cell_statements c = []) cells.
Proof.
  split; [reflexivity |].
  split.
  - unfold statements. simpl.
    repeat (constructor; [simpl; tauto |]). constructor.
  - split; [reflexivity |].
    unfold cells. repeat (constructor; [simpl; first [discriminate | reflexivity] |]).
    constructor.
Qed.

(** C6: the notebook holds exactly one CREATE OR REPLACE SEMANTIC VIEW
    statement, for TPCDS_SEMANTIC_VIEW_SM. Every statement after it is
    read-only: run from any warehouse state they leave the whole state, and so
    the stored semantic views, unchanged. After the whole notebook the stored
    semantic views are those the single creation left, with
    TPCDS_SEMANTIC_VIEW_SM stored under the database and schema the first cell
    selected. *)
Theorem created_once_then_read :
  filter creates statements = [CreateOrReplaceSemanticView TPCDS_SEMANTIC_VIEW_SM] /\
  exists before after,
    statements = before ++ CreateOrReplaceSemanticView TPCDS_SEMANTIC_VIEW_SM :: after /\
    forallb (fun s => negb (creates s)) before = true /\
    forallb read_only after = true /\
    map refers_to after =
      [ None; Some "TPCDS_SEMANTIC_VIEW_SM"; None; None;
        Some "TPCDS_SEMANTIC_VIEW_SM"; Some "TPCDS_SEMANTIC_VIEW_SM" ] /\
    (forall w, run after w = w) /\
    (forall w, w_semantic_views (run statements w) =
               create_or_replace (run before w) TPCDS_SEMANTIC_VIEW_SM) /\
    (forall w, w_semantic_views (run before w) = w_semantic_views w) /\
    (forall w, hd_error (w_semantic_views (run statements w)) =
               Some {| e_database := Some "<mdt3_default_database##>";
                       e_schema := Some "default_schema";
                       e_view := TPCDS_SEMANTIC_VIEW_SM |}).
Proof.
  split; [reflexivity |].
  exists [UseDatabase "<mdt3_default_database##>"; UseSchema "default_schema";
          ShowViews; UseRole "accountadmin"].
  exists (skipn 5 statements).
  assert (Hafter : forallb read_only (skipn 5 statements) = true) by reflexivity.
  split; [reflexivity |].
  split; [reflexivity |].
  split; [exact Hafter |].
  split; [reflexivity |].
  split; [intros w; now apply run_read_only |].
  split.
  - intros w.
    change statements with
      ([UseDatabase "<mdt3_default_database##>"; UseSchema "default_schema";
        ShowViews; UseRole "accountadmin"] ++
       [CreateOrReplaceSemanticView TPCDS_SEMANTIC_VIEW_SM] ++ skipn 5 statements).
    rewrite !run_app. rewrite (run_read_only _ Hafter). reflexivity.
  - split; [intros w; now apply run_keeps_catalog |].
    intros w.
    change statements with
      ([UseDatabase "<mdt3_default_database##>"; UseSchema "default_schema";
        ShowViews; UseRole "accountadmin"] ++
       [CreateOrReplaceSemanticView TPCDS_SEMANTIC_VIEW_SM] ++ skipn 5 statements).
    rewrite !run_app. rewrite (run_read_only _ Hafter). reflexivity.
Qed.

(** ** The pandas operations *)

Section GroupBy.
Local Open Scope Z_scope.

Lemma compare_lt_trans (a b c : string) :
  String.compare a b = Lt -> String.compare b c = Lt -> String.compare a c = Lt.
Proof.
  intros Hab Hbc.
  apply String_as_OT.cmp_lt. apply String_as_OT.cmp_lt in Hab, Hbc.
  exact (String_as_OT.lt_trans _ _ _ Hab Hbc).
Qed.

Lemma compare_lt_irrefl (a : string) : String.compare a a <> Lt.
Proof.
  intros H. assert (E : String.compare a a = Eq) by now apply String_as_OT.cmp_eq.
  congruence.
Qed.

Lemma compare_gt_lt (a b : string) :
  String.compare a b = Gt -> String.compare b a = Lt.
Proof.
  intros H. rewrite String.compare_antisym, H. reflexivity.
Qed.

Lemma wrap64_range (z : Z) : - 2 ^ 63 <= wrap64 z < 2 ^ 63.
Proof.
  unfold wrap64. pose proof (Z.mod_pos_bound (z + 2 ^ 63) (2 ^ 64)). lia.
Qed.

Lemma wrap64_id (z : Z) : - 2 ^ 63 <= z < 2 ^ 63 -> wrap64 z = z.
Proof.
  intros Hz. unfold wrap64. rewrite Z.mod_small; lia.
Qed.

Lemma wrap64_add_l (a b : Z) : wrap64 (wrap64 a + b) = wrap64 (a + b).
Proof.
  unfold wrap64. f_equal.
  replace ((a + 2 ^ 63) mod 2 ^ 64 - 2 ^ 63 + b + 2 ^ 63)
    with ((a + 2 ^ 63) mod 2 ^ 64 + b) by lia.
  rewrite Z.add_mod_idemp_l by lia. f_equal. lia.
Qed.

Lemma wrap64_add_r (a b : Z) : wrap64 (a + wrap64 b) = wrap64 (a + b).
Proof.
  rewrite (Z.add_comm a (wrap64 b)), wrap64_add_l. f_equal. lia.
Qed.

Lemma wrap64_idem (z : Z) : wrap64 (wrap64 z) = wrap64 z.
Proof. apply wrap64_id, wrap64_range. Qed.

Lemma sum_from (xs : list Z) (a : Z) :
  fold_left (fun acc x => wrap64 (acc + x)) xs (wrap64 a) = wrap64 (a + exact_sum xs).
Proof.
  revert a. induction xs as [| x xs IH]; intros a; simpl.
  - f_equal. lia.
  - rewrite wrap64_add_l, IH. f_equal. lia.
Qed.

(** The [int64] sum is the exact sum, wrapped once. *)
Lemma sum_exact (xs : list Z) : sum xs = wrap64 (exact_sum xs).
Proof.
  unfold sum. change 0 with (wrap64 0) at 1. rewrite sum_from. f_equal.
Qed.

Lemma exact_sum_app (xs ys : list Z) :
  exact_sum (xs ++ ys) = exact_sum xs + exact_sum ys.
Proof.
  unfold exact_sum. induction xs as [| x xs IH]; simpl; [reflexivity | rewrite IH; lia].
Qed.

(** Adding a row touches the total under its own label only, up to
    wrap-around. *)
Lemma add_to_group_total (k' k : string) (v : Z) (g : list (string * Z)) :
  wrap64 (total_under k' (add_to_group k v g)) =
  wrap64 (total_under k' g + (if String.eqb k k' then v else 0)).
Proof.
  induction g as [| [k0 s] g IH]; simpl.
  - destruct (String.eqb k k'); [rewrite wrap64_add_l |]; f_equal; lia.
  - destruct (String.compare k k0) eqn:E; simpl.
    + apply String.compare_eq_iff in E. subst k0.
      destruct (String.eqb k k'); [rewrite wrap64_add_l |]; f_equal; lia.
    + destruct (String.eqb k k'); [rewrite wrap64_add_l |]; f_equal; lia.
    + rewrite <- wrap64_add_r, IH, wrap64_add_r. f_equal. lia.
Qed.

Lemma add_to_group_sum (k : string) (v : Z) (g : list (string * Z)) :
  wrap64 (exact_sum (map snd (add_to_group k v g))) =
  wrap64 (exact_sum (map snd g) + v).
Proof.
  unfold exact_sum. induction g as [| [k0 s] g IH]; simpl.
  - rewrite wrap64_add_l. f_equal. lia.
  - destruct (String.compare k k0); simpl.
    + rewrite wrap64_add_l. f_equal. lia.
    + rewrite wrap64_add_l. f_equal. lia.
    + rewrite <- wrap64_add_r, IH, wrap64_add_r. f_equal. lia.
Qed.

Lemma add_to_group_in_range (k : string) (v : Z) (g : list (string * Z)) :
  Forall (fun kv => wrap64 (snd kv) = snd kv) g ->
  Forall (fun kv => wrap64 (snd kv) = snd kv) (add_to_group k v g).
Proof.
  induction 1 as [| [k0 s] g Hs Hg IH]; simpl.
  - constructor; [apply wrap64_idem | constructor].
  - destruct (String.compare k k0).
    + constructor; [apply wrap64_idem | exact Hg].
    + constructor; [apply wrap64_idem |]. now constructor.
    + now constructor.
Qed.

Lemma add_to_group_keys (k' k : string) (v : Z) (g : list (string * Z)) :
  In k' (map fst (add_to_group k v g)) <-> k' = k \/ In k' (map fst g).
Proof.
  induction g as [| [k0 s] g IH]; simpl.
  - intuition.
  - destruct (String.compare k k0) eqn:E; simpl.
    + apply String.compare_eq_iff in E. subst k0. intuition.
    + intuition.
    + rewrite IH. intuition.
Qed.

Lemma add_to_group_hd (a : string * Z) (k : string) (v : Z) (g : list (string * Z)) :
  HdRel key_lt a g -> String.compare (fst a) k = Lt ->
  HdRel key_lt a (add_to_group k v g).
Proof.
  intros Hhd Hak. destruct g as [| [k0 s] g]; simpl.
  - constructor. exact Hak.
  - inversion Hhd as [| b l Hab]; subst.
    destruct (String.compare k k0); constructor; assumption.
Qed.

Lemma add_to_group_sorted (k : string) (v : Z) (g : list (string * Z)) :
  Sorted key_lt g -> Sorted key_lt (add_to_group k v g).
Proof.
  induction 1 as [| [k0 s] g Hs IH Hhd]; simpl.
  - repeat constructor.
  - destruct (String.compare k k0) eqn:E.
    + constructor; [exact Hs |].
      destruct Hhd; constructor. assumption.
    + constructor; [now constructor |]. constructor. exact E.
    + constructor; [exact IH |].
      apply add_to_group_hd; [exact Hhd |]. now apply compare_gt_lt.
Qed.

Lemma sorted_keys_NoDup (g : list (string * Z)) :
  Sorted key_lt g -> NoDup (map fst g).
Proof.
  intros Hs. apply Sorted_StronglySorted in Hs.
  - induction Hs as [| a g _ IH Hall]; simpl; constructor; [| exact IH].
    intros Hin. apply in_map_iff in Hin. destruct Hin as [b [Hb Hin]].
    rewrite Forall_forall in Hall. specialize (Hall b Hin).
    unfold key_lt in Hall. rewrite Hb in Hall. now apply compare_lt_irrefl in Hall.
  - intros x y z. unfold key_lt. apply compare_lt_trans.
Qed.

Lemma total_under_absent (k : string) (g : list (string * Z)) :
  ~ In k (map fst g) -> total_under k g = 0.
Proof.
  induction g as [| [k0 s] g IH]; simpl; intros Hn; [reflexivity |].
  destruct (String.eqb k0 k) eqn:E.
  - apply String.eqb_eq in E. tauto.
  - rewrite IH; [lia | tauto].
Qed.

Lemma total_under_row (k : string) (s : Z) (g : list (string * Z)) :
  NoDup (map fst g) -> In (k, s) g -> total_under k g = s.
Proof.
  induction g as [| [k0 s0] g IH]; simpl; intros Hnd Hin; [destruct Hin |].
  inversion Hnd as [| x l Hx Hnd']; subst.
  destruct Hin as [E | Hin].
  - inversion E; subst. rewrite String.eqb_refl.
    rewrite total_under_absent; [lia | exact Hx].
  - destruct (String.eqb k0 k) eqn:E.
    + apply String.eqb_eq in E. subst k0. exfalso. apply Hx.
      apply in_map_iff. exists (k, s). split; [reflexivity | exact Hin].
    + rewrite (IH Hnd' Hin). lia.
Qed.

Variable R : Type.
Variables (key : R -> option string) (val : R -> Z).

Let step (g : list (string * Z)) (r : R) : list (string * Z) :=
  match key r with
  | Some k => add_to_group k (val r) g
  | None => g
  end.

Lemma fold_total (k : string) (frame : list R) (g : list (string * Z)) :
  wrap64 (total_under k (fold_left step frame g)) =
  wrap64 (total_under k g +
          exact_sum (map val (filter (fun r => option_string_eqb (key r) (Some k)) frame))).
Proof.
  revert g. induction frame as [| r frame IH]; intros g; simpl.
  - f_equal. lia.
  - rewrite IH. unfold step. simpl.
    destruct (key r) as [k0 |]; simpl.
    + rewrite <- wrap64_add_l, add_to_group_total, wrap64_add_l.
      destruct (String.eqb k0 k); simpl; f_equal; lia.
    + reflexivity.
Qed.

Lemma fold_sum (frame : list R) (g : list (string * Z)) :
  wrap64 (exact_sum (map snd (fold_left step frame g))) =
  wrap64 (exact_sum (map snd g) + exact_sum (map val (keyed key frame))).
Proof.
  revert g. induction frame as [| r frame IH]; intros g; simpl.
  - unfold keyed. simpl. f_equal. lia.
  - rewrite IH. unfold step, keyed. simpl.
    destruct (key r) as [k0 |]; simpl.
    + rewrite <- wrap64_add_l, add_to_group_sum, wrap64_add_l. f_equal. lia.
    + reflexivity.
Qed.

Lemma fold_in_range (frame : list R) (g : list (string * Z)) :
  Forall (fun kv => wrap64 (snd kv) = snd kv) g ->
  Forall (fun kv => wrap64 (snd kv) = snd kv) (fold_left step frame g).
Proof.
  revert g. induction frame as [| r frame IH]; intros g Hg; simpl; [exact Hg |].
  apply IH. unfold step. destruct (key r); [now apply add_to_group_in_range | exact Hg].
Qed.

Lemma groupby_sum_in_range (frame : list R) :
  Forall (fun kv => wrap64 (snd kv) = snd kv) (groupby_sum key val frame).
Proof. apply fold_in_range. constructor. Qed.

Lemma fold_keys (k : string) (frame : list R) (g : list (string * Z)) :
  In k (map fst (fold_left step frame g)) <->
  In k (map fst g) \/ exists r, In r frame /\ key r = Some k.
Proof.
  revert g. induction frame as [| r frame IH]; intros g; simpl.
  - split; [tauto | intros [H | [r [[] _]]]; exact H].
  - rewrite IH. unfold step. split.
    + intros [H | [r' [Hr' Hk]]].
      * destruct (key r) as [k0 |] eqn:E.
        -- apply add_to_group_keys in H. destruct H as [-> | H]; [| tauto].
           right. exists r. split; [now left | exact E].
        -- tauto.
      * right. exists r'. split; [now right | exact Hk].
    + intros [H | [r' [[<- | Hr'] Hk]]].
      * left. destruct (key r); [apply add_to_group_keys |]; tauto.
      * left. rewrite Hk. apply add_to_group_keys. now left.
      * right. exists r'. tauto.
Qed.

Lemma fold_sorted (frame : list R) (g : list (string * Z)) :
  Sorted key_lt g -> Sorted key_lt (fold_left step frame g).
Proof.
  revert g. induction frame as [| r frame IH]; intros g Hs; simpl; [exact Hs |].
  apply IH. unfold step. destruct (key r); [now apply add_to_group_sorted | exact Hs].
Qed.

(** What [groupby_sum] returns: labels in ascending order without repeats,
    one for each key present in the frame, each with the total of its rows. *)
Lemma groupby_sum_sorted (frame : list R) :
  Sorted key_lt (groupby_sum key val frame).
Proof. apply fold_sorted. constructor. Qed.

Lemma groupby_sum_NoDup (frame : list R) :
  NoDup (map fst (groupby_sum key val frame)).
Proof. apply sorted_keys_NoDup, groupby_sum_sorted. Qed.

Lemma groupby_sum_keys (k : string) (frame : list R) :
  In k (map fst (groupby_sum key val frame)) <->
  exists r, In r frame /\ key r = Some k.
Proof.
  unfold groupby_sum. fold step. rewrite fold_keys. simpl. tauto.
Qed.

Lemma groupby_sum_total (k : string) (s : Z) (frame : list R) :
  In (k, s) (groupby_sum key val frame) -> s = group_total key val k frame.
Proof.
  intros Hin.
  pose proof (groupby_sum_in_range frame) as Hr. rewrite Forall_forall in Hr.
  pose proof (Hr _ Hin) as Hs. simpl in Hs.
  pose proof (total_under_row k s _ (groupby_sum_NoDup frame) Hin) as Ht.
  transitivity (wrap64 (total_under k (groupby_sum key val frame))).
  - now rewrite Ht.
  - unfold groupby_sum. fold step. rewrite fold_total. simpl.
    unfold group_total. now rewrite sum_exact.
Qed.

Lemma groupby_sum_sum (frame : list R) :
  sum (map snd (groupby_sum key val frame)) = sum (map val (keyed key frame)).
Proof.
  rewrite !sum_exact. unfold groupby_sum. fold step. rewrite fold_sum. reflexivity.
Qed.


End GroupBy.

Section Ranges.
Local Open Scope Z_scope.

Lemma magnitude_nonneg (xs : list Z) : 0 <= magnitude xs.
Proof.
  unfold magnitude. induction xs as [| x xs IH]; simpl; lia.
Qed.

Lemma exact_sum_magnitude (xs : list Z) : Z.abs (exact_sum xs) <= magnitude xs.
Proof.
  unfold exact_sum, magnitude. induction xs as [| x xs IH]; simpl; lia.
Qed.

Lemma magnitude_filter {A : Type} (val : A -> Z) (f : A -> bool) (l : list A) :
  magnitude (map val (filter f l)) <= magnitude (map val l).
Proof.
  unfold magnitude. induction l as [| a l IH]; simpl; [lia |].
  destruct (f a); simpl; lia.
Qed.

(** While the absolute values add up to less than [2^63], the [int64] sum
    does not wrap: it is the exact sum. *)
Lemma sum_in_range (xs : list Z) :
  magnitude xs < 2 ^ 63 -> sum xs = exact_sum xs.
Proof.
  intros H. rewrite sum_exact. apply wrap64_id.
  pose proof (exact_sum_magnitude xs). lia.
Qed.

Lemma group_total_in_range {A : Type} (key : A -> option string) (val : A -> Z)
    (k : string) (l : list A) :
  magnitude (map val l) < 2 ^ 63 ->
  group_total key val k l =
  exact_sum (map val (filter (fun r => option_string_eqb (key r) (Some k)) l)).
Proof.
  intros H. unfold group_total. apply sum_in_range.
  pose proof (magnitude_filter val (fun r => option_string_eqb (key r) (Some k)) l). lia.
Qed.

End Ranges.

Section ArgMax.
Local Open Scope Z_scope.
Variable K : Type.

Lemma split_bounded (r x : K * Z) (pre post : list (K * Z)) :
  In x (pre ++ r :: post) ->
  Forall (fun y => snd y < snd r) pre ->
  Forall (fun y => snd y <= snd r) post ->
  snd x <= snd r.
Proof.
  intros Hin Hpre Hpost. rewrite Forall_forall in Hpre, Hpost.
  apply in_app_or in Hin. destruct Hin as [Hin | [<- | Hin]].
  - specialize (Hpre x Hin). lia.
  - lia.
  - exact (Hpost x Hin).
Qed.

(** [argmax_from] returns an element of the series, strictly above every
    element before it and at least every element after it. *)
Lemma argmax_from_first (best : K * Z) (s : list (K * Z)) :
  exists pre post,
    best :: s = pre ++ argmax_from best s :: post /\
    Forall (fun x => snd x < snd (argmax_from best s)) pre /\
    Forall (fun x => snd x <= snd (argmax_from best s)) post.
Proof.
  revert best. induction s as [| [k v] s IH]; intros best; simpl.
  - exists [], []. repeat constructor.
  - destruct (v >? snd best) eqn:E.
    + destruct (IH (k, v)) as [pre [post [Heq [Hpre Hpost]]]].
      remember (argmax_from (k, v) s) as r eqn:Er.
      assert (Hv : snd (k, v) <= snd r).
      { apply (split_bounded r (k, v) pre post); try assumption.
        rewrite <- Heq. now left. }
      simpl in Hv.
      exists (best :: pre), post. simpl. rewrite Heq. split; [reflexivity |].
      split; [| exact Hpost]. constructor; [lia | exact Hpre].
    + destruct (IH best) as [pre [post [Heq [Hpre Hpost]]]].
      remember (argmax_from best s) as r eqn:Er.
      assert (Hv : v <= snd best) by lia.
      destruct pre as [| p pre]; simpl in Heq.
      * injection Heq as Hb Hs. exists [], ((k, v) :: s). simpl.
        split; [now rewrite Hb |]. split; [constructor |].
        constructor; [simpl; rewrite <- Hb; exact Hv | rewrite Hs; exact Hpost].
      * injection Heq as Hb Hs. exists (p :: (k, v) :: pre), post. simpl.
        split; [now rewrite Hb, Hs |].
        inversion Hpre as [| y l Hy Hl]; subst y l. split; [| exact Hpost].
        constructor; [exact Hy |]. constructor; [| exact Hl].
        simpl. rewrite Hb in Hv. lia.
Qed.

Lemma fold_max_argmax (best : K * Z) (s : list (K * Z)) :
  fold_left Z.max (map snd s) (snd best) = snd (argmax_from best s).
Proof.
  revert best. induction s as [| [k v] s IH]; intros best; simpl; [reflexivity |].
  destruct (v >? snd best) eqn:E.
  - rewrite <- (IH (k, v)). simpl. f_equal. lia.
  - rewrite <- (IH best). f_equal. lia.
Qed.

(** On a series that is not empty, [idxmax] returns the label and [max] the
    value of one and the same row: the first row holding the largest value. *)
Lemma idxmax_max (s : list (K * Z)) :
  s <> [] ->
  exists name top pre post,
    idxmax s = Ok name /\ max (map snd s) = Fin (inject_Z top) /\
    s = pre ++ (name, top) :: post /\
    Forall (fun x => snd x < top) pre /\
    Forall (fun x => snd x <= top) post.
Proof.
  destruct s as [| best s]; [congruence | intros _].
  destruct (argmax_from_first best s) as [pre [post [Heq [Hpre Hpost]]]].
  exists (fst (argmax_from best s)), (snd (argmax_from best s)), pre, post.
  split; [reflexivity |]. split.
  - simpl. rewrite fold_max_argmax. reflexivity.
  - rewrite <- surjective_pairing. auto.
Qed.

Lemma idxmax_empty : idxmax (@nil (K * Z)) =
  Raise (ValueError "attempt to get argmax of an empty sequence").
Proof. reflexivity. Qed.

End ArgMax.

(** ** The two cells, run on given bindings *)

Ltac step_cell :=
  cbv [run_cell outcome rendered final metrics charts filter flat_map
       py_dashboard py_visualization grouped key_of key_name
       bind ret raise lift assign emit var frame_var int_var num_var str_var
       st_dataframe reset_index set_index quantity_series st_selectbox
       st_checkbox bind_var bindings page position selected show_data_table
       nth app fst snd String.eqb Ascii.eqb Bool.eqb].

Ltac run_cell_with H :=
  step_cell; rewrite ?H; step_cell.

(** [py_visualization] never raises on a frame; its page is built from the
    grouped table and the widgets alone. *)
Lemma visualization_run (w : widgets) (ns : namespace) (d : dataframe) :
  ns "df" = Some (VFrame d) ->
  outcome (run_cell py_visualization w ns) = Ok tt /\
  rendered (run_cell py_visualization w ns) =
    [ Title "📊 Sales Data Interactive Visualization";
      Selectbox "Select grouping option:" ["BRAND"; "STATE"] 0;
      Subheader (chart_title_of (selected w));
      BarChart (grouped (selected w) d);
      Checkbox "Show data table" ] ++
    (if show_data_table w
     then [ Subheader "Grouped Data";
            DataFrame (key_name (selected w)) (grouped (selected w) d) ]
     else []) /\
  final (run_cell py_visualization w ns) "grouped_data" =
    Some (VGrouped (key_name (selected w)) true (grouped (selected w) d)).
Proof.
  intros H. destruct w as [[|] show]; run_cell_with H;
    destruct show; repeat split; reflexivity.
Qed.

(** The bindings [py_dashboard] assigns before it asks for [idxmax]. *)
Lemma dashboard_bindings (w : widgets) (ns : namespace) (d : dataframe) :
  ns "df" = Some (VFrame d) ->
  final (run_cell py_dashboard w ns) "grouped_data" =
    Some (VGrouped (key_name (selected w)) true (grouped (selected w) d)) /\
  final (run_cell py_dashboard w ns) "total_sales" =
    Some (VInt (sum (map TOTALSALESQUANTITY d))) /\
  final (run_cell py_dashboard w ns) "avg_sales" =
    Some (VNum (mean (map TOTALSALESQUANTITY d))) /\
  final (run_cell py_dashboard w ns) "top_performer" =
    Some (VNum (max (map snd (grouped (selected w) d)))).
Proof.
  intros H. destruct w as [[|] show]; run_cell_with H;
    match goal with |- context [idxmax ?s] => destruct (idxmax s) end;
    destruct show; repeat split; reflexivity.
Qed.

(** When [idxmax] returns, [py_dashboard] completes. *)
Lemma dashboard_run_ok (w : widgets) (ns : namespace) (d : dataframe) (name : string) :
  ns "df" = Some (VFrame d) ->
  idxmax (grouped (selected w) d) = Ok name ->
  outcome (run_cell py_dashboard w ns) = Ok tt /\
  metrics (rendered (run_cell py_dashboard w ns)) =
    [ Metric 0 "Total Sales Quantity"
        (Format ",.0f" (Fin (inject_Z (sum (map TOTALSALESQUANTITY d))))) None;
      Metric 1 (average_label (selected w))
        (Format ",.0f" (mean (map TOTALSALESQUANTITY d)))
        (Some (average_delta (selected w) d));
      Metric 2 (String.append "Top " (title (key_name (selected w))))
        (Format ",.0f" (max (map snd (grouped (selected w) d))))
        (Some (Str name)) ] /\
  charts (rendered (run_cell py_dashboard w ns)) = [ grouped (selected w) d ] /\
  final (run_cell py_dashboard w ns) "top_performer_name" = Some (VStr name).
Proof.
  intros H Hidx. destruct w as [[|] show]; cbv [grouped key_of selected] in Hidx;
    run_cell_with H; rewrite Hidx; destruct show; repeat split; reflexivity.
Qed.

(** When [idxmax] raises, the cell stops there: the title and the selection
    widget are on the page, no metric and no chart. *)
Lemma dashboard_run_raise (w : widgets) (ns : namespace) (d : dataframe) (e : exn) :
  ns "df" = Some (VFrame d) ->
  idxmax (grouped (selected w) d) = Raise e ->
  outcome (run_cell py_dashboard w ns) = Raise e /\
  rendered (run_cell py_dashboard w ns) =
    [ Title "📊 Sales Data Dashboard";
      Selectbox "Select grouping option:" ["BRAND"; "STATE"] 0 ].
Proof.
  intros H Hidx. destruct w as [[|] show]; cbv [grouped key_of selected] in Hidx;
    run_cell_with H; rewrite Hidx; split; reflexivity.
Qed.

(** ** The grouping (C1, C9) *)

Lemma grouped_row_unique (g : grouping) (d : dataframe) (k : string) (s s' : Z) :
  In (k, s) (grouped g d) -> In (k, s') (grouped g d) -> s = s'.
Proof.
  intros H1 H2. unfold grouped in *.
  rewrite (groupby_sum_total _ _ _ _ _ _ H1).
  rewrite (groupby_sum_total _ _ _ _ _ _ H2). reflexivity.
Qed.

(** C1, as worded, fails twice. A missing value is one of the values of a
    column ([unique] lists it), and the group-by has no row for it. And the
    group-by is not the only computation of the dashboard: two result tables
    with the same grouped table give different metric cards, since the
    average is taken over the rows of [df]. *)
Lemma grouping_claim_fails :
  (In None (unique (map BRAND no_brand)) /\ grouped ByBrand no_brand = []) /\
  ~ (forall g d v, In v (unique (map (key_of g) d)) ->
       exists k, v = Some k /\ In k (map fst (grouped g d))) /\
  (grouped ByBrand one_row = grouped ByBrand two_rows /\
   metrics (rendered (run_cell py_dashboard by_brand_shown (fresh one_row))) <>
   metrics (rendered (run_cell py_dashboard by_brand_shown (fresh two_rows)))) /\
  ~ (forall w d1 d2, grouped (selected w) d1 = grouped (selected w) d2 ->
       rendered (run_cell py_dashboard w (fresh d1)) =
       rendered (run_cell py_dashboard w (fresh d2))).
Proof.
  assert (Hnone : In None (unique (map BRAND no_brand))) by (left; reflexivity).
  assert (Hsame : grouped ByBrand one_row = grouped ByBrand two_rows) by reflexivity.
  assert (Hdiff : metrics (rendered (run_cell py_dashboard by_brand_shown (fresh one_row))) <>
                  metrics (rendered (run_cell py_dashboard by_brand_shown (fresh two_rows)))).
  { vm_compute. intros E. discriminate E. }
  split; [split; [exact Hnone | reflexivity] |].
  split.
  - intros H. destruct (H ByBrand no_brand None Hnone) as [k [Hk _]]. discriminate Hk.
  - split; [split; [exact Hsame | exact Hdiff] |].
    intros H. apply Hdiff. f_equal. apply (H by_brand_shown one_row two_rows). exact Hsame.
Qed.

(** C1, amended: in both Streamlit cells [grouped_data] is the group-by/sum
    of [df] on the selected column: it has exactly one row for each value of
    that column that is present (rows whose key is missing are dropped), and
    the row's TOTALSALESQUANTITY is the sum over the input rows carrying that
    value. In the visualization cell nothing else is computed: its page is the
    same for any two tables with the same grouped table. (The dashboard cell
    computes its metrics from [df] besides.) *)
Theorem grouped_data_is_group_by_sum (w : widgets) (ns : namespace) (d : dataframe) :
  ns "df" = Some (VFrame d) ->
  final (run_cell py_visualization w ns) "grouped_data" =
    Some (VGrouped (key_name (selected w)) true (grouped (selected w) d)) /\
  final (run_cell py_dashboard w ns) "grouped_data" =
    Some (VGrouped (key_name (selected w)) true (grouped (selected w) d)) /\
  NoDup (map fst (grouped (selected w) d)) /\
  (forall k, (exists r, In r d /\ key_of (selected w) r = Some k) <->
             exists s, In (k, s) (grouped (selected w) d)) /\
  (forall k s, In (k, s) (grouped (selected w) d) ->
     s = group_total (key_of (selected w)) TOTALSALESQUANTITY k d) /\
  (forall ns' d', ns' "df" = Some (VFrame d') ->
     grouped (selected w) d' = grouped (selected w) d ->
     rendered (run_cell py_visualization w ns') =
     rendered (run_cell py_visualization w ns)).
Proof.
  intros H.
  destruct (visualization_run w ns d H) as [_ [Hpage Hg1]].
  destruct (dashboard_bindings w ns d H) as [Hg2 _].
  split; [exact Hg1 |]. split; [exact Hg2 |].
  split; [apply groupby_sum_NoDup |].
  split.
  - intros k. unfold grouped.
    rewrite <- (groupby_sum_keys _ (key_of (selected w)) TOTALSALESQUANTITY). split.
    + intros Hin. apply in_map_iff in Hin. destruct Hin as [[k' s] [Hk Hin]].
      simpl in Hk. subst k'. now exists s.
    + intros [s Hin]. apply in_map_iff. now exists (k, s).
  - split.
    + intros k s. apply groupby_sum_total.
    + intros ns' d' H' Hsame.
      destruct (visualization_run w ns' d' H') as [_ [Hpage' _]].
      rewrite Hpage, Hpage', Hsame. reflexivity.
Qed.

Lemma grouped_data_is_group_by_sum_witness :
  stale mixed "df" = Some (VFrame mixed) /\
  final (run_cell py_dashboard by_state_hidden (stale mixed)) "grouped_data" =
    Some (VGrouped "STATE" true [("CA", 12%Z); ("TX", 8%Z)]) /\
  NoDup (map fst (grouped ByState mixed)).
Proof.
  pose proof (grouped_data_is_group_by_sum by_state_hidden (stale mixed) mixed
                (eq_refl : stale mixed "df" = Some (VFrame mixed))) as H.
  split; [reflexivity |].
  split; [exact (proj1 (proj2 H)) | exact (proj1 (proj2 (proj2 H)))].
Defined.



(** ** The dashboard's metrics (C7, C10) *)

Lemma grouped_empty (g : grouping) : grouped g [] = [].
Proof. reflexivity. Qed.

Lemma mean_nonempty (xs : list Z) :
  xs <> [] -> mean xs = round64 (exact_sum xs # Pos.of_nat (List.length xs)).
Proof.
  destruct xs as [| x xs]; [congruence | reflexivity].
Qed.

(** C7, as worded, fails. On a table that is not empty but has no BRAND in
    any row the dashboard draws no metric card at all: the grouped table is
    empty and [idxmax] raises. And the total it shows is an [int64] sum, not
    the sum: on two rows of [2^62] it is [-2^63]. *)
Lemma dashboard_kpis_fail :
  (no_brand <> [] /\
   outcome (run_cell py_dashboard by_brand_shown (fresh no_brand)) =
     Raise (ValueError "attempt to get argmax of an empty sequence") /\
   metrics (rendered (run_cell py_dashboard by_brand_shown (fresh no_brand))) = []) /\
  (outcome (run_cell py_dashboard by_brand_shown (fresh two_large_rows)) = Ok tt /\
   final (run_cell py_dashboard by_brand_shown (fresh two_large_rows)) "total_sales" =
     Some (VInt (- 2 ^ 63)) /\
   exact_sum (map TOTALSALESQUANTITY two_large_rows) = (2 ^ 63)%Z) /\
  ~ (forall w ns d, ns "df" = Some (VFrame d) ->
       List.length (metrics (rendered (run_cell py_dashboard w ns))) = 3%nat) /\
  ~ (forall w ns d, ns "df" = Some (VFrame d) ->
       final (run_cell py_dashboard w ns) "total_sales" =
         Some (VInt (exact_sum (map TOTALSALESQUANTITY d)))).
Proof.
  assert (Hnone : metrics (rendered (run_cell py_dashboard by_brand_shown (fresh no_brand))) = [])
    by reflexivity.
  assert (Hwrap : final (run_cell py_dashboard by_brand_shown (fresh two_large_rows))
                    "total_sales" = Some (VInt (- 2 ^ 63)))
    by (vm_compute; reflexivity).
  split; [split; [discriminate | split; [reflexivity | exact Hnone]] |].
  split; [split; [vm_compute; reflexivity | split; [exact Hwrap | reflexivity]] |].
  split.
  - intros H. specialize (H by_brand_shown (fresh no_brand) no_brand eq_refl).
    rewrite Hnone in H. discriminate H.
  - intros H. specialize (H by_brand_shown (fresh two_large_rows) two_large_rows eq_refl).
    rewrite Hwrap in H. vm_compute in H. discriminate H.
Qed.

(** C7, amended: when some row of [df] has the selected grouping column (the
    grouped table has a row) and the quantities are in the range where the
    arithmetic is exact, the dashboard cell completes and puts exactly three
    metric cards on the page. The first shows the sum of TOTALSALESQUANTITY
    over all rows of [df]; the second shows that sum divided by the number of
    rows, rounded to a float; the third shows the largest of the grouped sums,
    which is the sum over the rows of one group, with that group's key as its
    delta. *)
Theorem dashboard_kpis (w : widgets) (ns : namespace) (d : dataframe) :
  ns "df" = Some (VFrame d) ->
  grouped (selected w) d <> [] ->
  exact_range d ->
  exists name top,
    outcome (run_cell py_dashboard w ns) = Ok tt /\
    metrics (rendered (run_cell py_dashboard w ns)) =
      [ Metric 0 "Total Sales Quantity"
          (Format ",.0f" (Fin (inject_Z (exact_sum (map TOTALSALESQUANTITY d))))) None;
        Metric 1 (average_label (selected w))
          (Format ",.0f"
             (round64 (exact_sum (map TOTALSALESQUANTITY d) # Pos.of_nat (List.length d))))
          (Some (average_delta (selected w) d));
        Metric 2 (String.append "Top " (title (key_name (selected w))))
          (Format ",.0f" (Fin (inject_Z top))) (Some (Str name)) ] /\
    d <> [] /\
    In (name, top) (grouped (selected w) d) /\
    (forall k s, In (k, s) (grouped (selected w) d) -> (s <= top)%Z) /\
    top = exact_sum (map TOTALSALESQUANTITY
                       (filter (fun r => option_string_eqb (key_of (selected w) r) (Some name)) d)).
Proof.
  intros H Hne [Hmag _].
  assert (Hd : d <> []).
  { intros ->. apply Hne. apply grouped_empty. }
  assert (Hfit : (magnitude (map TOTALSALESQUANTITY d) < 2 ^ 63)%Z).
  { apply (Z.le_lt_trans _ _ _ Hmag). reflexivity. }
  destruct (idxmax_max _ (grouped (selected w) d) Hne)
    as [name [top [pre [post [Hidx [Hmax [Hsplit [Hpre Hpost]]]]]]]].
  destruct (dashboard_run_ok w ns d name H Hidx) as [Hok [Hm _]].
  assert (Hin : In (name, top) (grouped (selected w) d)).
  { rewrite Hsplit. apply in_elt. }
  exists name, top.
  split; [exact Hok |].
  split.
  - rewrite Hm, Hmax. rewrite mean_nonempty.
    + now rewrite length_map, (sum_in_range _ Hfit).
    + destruct d; [congruence | discriminate].
  - split; [exact Hd |]. split; [exact Hin |]. split.
    + intros k s Hks. rewrite Hsplit in Hks.
      apply (split_bounded _ (name, top) (k, s) pre post Hks); assumption.
    + rewrite (groupby_sum_total _ _ _ _ _ _ Hin).
      now apply group_total_in_range.
Qed.

Lemma dashboard_kpis_witness :
  exact_range mixed /\
  outcome (run_cell py_dashboard by_brand_shown (fresh mixed)) = Ok tt /\
  exists name top,
    metrics (rendered (run_cell py_dashboard by_brand_shown (fresh mixed))) =
      [ Metric 0 "Total Sales Quantity" (Format ",.0f" (Fin (inject_Z 20))) None;
        Metric 1 "Average Sales per Brand" (Format ",.0f" (Fin 5))
          (Some (average_delta ByBrand mixed));
        Metric 2 "Top Brand" (Format ",.0f" (Fin (inject_Z top))) (Some (Str name)) ] /\
    In (name, top) (grouped ByBrand mixed).
Proof.
  assert (Hne : grouped (selected by_brand_shown) mixed <> []).
  { vm_compute. discriminate. }
  assert (Hrange : exact_range mixed).
  { split; vm_compute; discriminate. }
  destruct (dashboard_kpis by_brand_shown (fresh mixed) mixed
              (eq_refl : fresh mixed "df" = Some (VFrame mixed)) Hne Hrange)
    as [name [top [Hok [Hm [_ [Hin _]]]]]].
  split; [exact Hrange |]. split; [exact Hok |].
  exists name, top. split; [exact Hm | exact Hin].
Defined.

(** C10: on an empty result table the dashboard cell does not complete.
    [idxmax] of the empty grouped series raises ValueError, so the cell stops
    before any metric card is drawn. By then it has bound [total_sales] to 0,
    [avg_sales] to not-a-number (the mean of no rows) and [top_performer] to
    not-a-number; the percentage [avg_sales / total_sales * 100] of those two
    values is a division by zero and gives not-a-number. *)
Theorem dashboard_fails_on_empty (w : widgets) (ns : namespace) :
  ns "df" = Some (VFrame []) ->
  idxmax (grouped (selected w) []) =
    Raise (ValueError "attempt to get argmax of an empty sequence") /\
  outcome (run_cell py_dashboard w ns) =
    Raise (ValueError "attempt to get argmax of an empty sequence") /\
  metrics (rendered (run_cell py_dashboard w ns)) = [] /\
  final (run_cell py_dashboard w ns) "total_sales" = Some (VInt 0) /\
  final (run_cell py_dashboard w ns) "avg_sales" = Some (VNum NaN) /\
  final (run_cell py_dashboard w ns) "top_performer" = Some (VNum NaN) /\
  percent_of (mean []) (sum []) = NaN.
Proof.
  intros H.
  assert (Hidx : idxmax (grouped (selected w) []) =
                 Raise (ValueError "attempt to get argmax of an empty sequence")).
  { rewrite grouped_empty. apply idxmax_empty. }
  destruct (dashboard_run_raise w ns [] _ H Hidx) as [Hout Hpage].
  destruct (dashboard_bindings w ns [] H) as [_ [Ht [Ha Hp]]].
  split; [exact Hidx |]. split; [exact Hout |].
  split; [rewrite Hpage; reflexivity |].
  split; [exact Ht |]. split; [exact Ha |]. split; [| reflexivity].
  rewrite Hp, grouped_empty. reflexivity.
Qed.

Lemma dashboard_fails_on_empty_witness :
  outcome (run_cell py_dashboard by_state_hidden (stale [])) =
    Raise (ValueError "attempt to get argmax of an empty sequence") /\
  final (run_cell py_dashboard by_state_hidden (stale [])) "avg_sales" =
    Some (VNum NaN).
Proof.
  pose proof (dashboard_fails_on_empty by_state_hidden (stale [])
                (eq_refl : stale [] "df" = Some (VFrame []))) as H.
  split; [exact (proj1 (proj2 H)) |].
  exact (proj1 (proj2 (proj2 (proj2 (proj2 H))))).
Defined.

(** ** Determinism (C8) *)

(** C8: two runs of a Streamlit cell on bindings that agree on [df] and with
    the same grouping selected compute the same things, whatever else the
    bindings hold and whatever the checkbox says: the same outcome, the same
    grouped table, the same chart input, the same three metric cards and the
    same values of [total_sales], [avg_sales] and [top_performer]; when the
    dashboard completes, the same [top_performer_name] too. With the checkbox
    equal as well, the whole page is the same. *)
Theorem cells_depend_on_df_and_selection
    (w1 w2 : widgets) (ns1 ns2 : namespace) (d : dataframe) :
  ns1 "df" = Some (VFrame d) ->
  ns2 "df" = Some (VFrame d) ->
  selected w1 = selected w2 ->
  (outcome (run_cell py_visualization w1 ns1) = outcome (run_cell py_visualization w2 ns2) /\
   final (run_cell py_visualization w1 ns1) "grouped_data" =
   final (run_cell py_visualization w2 ns2) "grouped_data" /\
   charts (rendered (run_cell py_visualization w1 ns1)) =
   charts (rendered (run_cell py_visualization w2 ns2))) /\
  (outcome (run_cell py_dashboard w1 ns1) = outcome (run_cell py_dashboard w2 ns2) /\
   Forall (fun x => final (run_cell py_dashboard w1 ns1) x =
                    final (run_cell py_dashboard w2 ns2) x)
          ["grouped_data"; "total_sales"; "avg_sales"; "top_performer"] /\
   charts (rendered (run_cell py_dashboard w1 ns1)) =
   charts (rendered (run_cell py_dashboard w2 ns2)) /\
   metrics (rendered (run_cell py_dashboard w1 ns1)) =
   metrics (rendered (run_cell py_dashboard w2 ns2)) /\
   (outcome (run_cell py_dashboard w1 ns1) = Ok tt ->
    final (run_cell py_dashboard w1 ns1) "top_performer_name" =
    final (run_cell py_dashboard w2 ns2) "top_performer_name")) /\
  (show_data_table w1 = show_data_table w2 ->
   rendered (run_cell py_visualization w1 ns1) = rendered (run_cell py_visualization w2 ns2) /\
   rendered (run_cell py_dashboard w1 ns1) = rendered (run_cell py_dashboard w2 ns2)).
Proof.
  intros H1 H2 Hsel.
  destruct (visualization_run w1 ns1 d H1) as [Vo1 [Vp1 Vg1]].
  destruct (visualization_run w2 ns2 d H2) as [Vo2 [Vp2 Vg2]].
  destruct (dashboard_bindings w1 ns1 d H1) as [Dg1 [Dt1 [Da1 Dp1]]].
  destruct (dashboard_bindings w2 ns2 d H2) as [Dg2 [Dt2 [Da2 Dp2]]].
  split; [| split].
  - split; [congruence |]. split; [congruence |].
    rewrite Vp1, Vp2, Hsel.
    destruct (show_data_table w1), (show_data_table w2); reflexivity.
  - assert (Hb : Forall (fun x => final (run_cell py_dashboard w1 ns1) x =
                                  final (run_cell py_dashboard w2 ns2) x)
                        ["grouped_data"; "total_sales"; "avg_sales"; "top_performer"]).
    { repeat constructor; congruence. }
    destruct (idxmax (grouped (selected w1) d)) as [name | e] eqn:Hidx.
    + destruct (dashboard_run_ok w1 ns1 d name H1 Hidx) as [O1 [M1 [C1 N1]]].
      rewrite Hsel in Hidx.
      destruct (dashboard_run_ok w2 ns2 d name H2 Hidx) as [O2 [M2 [C2 N2]]].
      repeat split; first [exact Hb | congruence | intros Hok; congruence].
    + destruct (dashboard_run_raise w1 ns1 d e H1 Hidx) as [O1 P1].
      rewrite Hsel in Hidx.
      destruct (dashboard_run_raise w2 ns2 d e H2 Hidx) as [O2 P2].
      repeat split; first [exact Hb | congruence | intros Hok; congruence].
  - intros Hshow. split; [rewrite Vp1, Vp2, Hsel, Hshow; reflexivity |].
    destruct w1 as [g1 s1], w2 as [g2 s2]. simpl in Hsel, Hshow. subst g2 s2.
    clear - H1 H2.
    destruct g1; run_cell_with H1; run_cell_with H2;
      match goal with |- context [idxmax ?s] => destruct (idxmax s) end;
      destruct s1; reflexivity.
Qed.

Lemma cells_depend_on_df_and_selection_witness :
  fresh mixed "df" = stale mixed "df" /\
  metrics (rendered (run_cell py_dashboard by_brand_shown (fresh mixed))) =
  metrics (rendered (run_cell py_dashboard
                       {| selected := ByBrand; show_data_table := false |}
                       (stale mixed))) /\
  final (run_cell py_visualization by_brand_shown (fresh mixed)) "grouped_data" =
  final (run_cell py_visualization
           {| selected := ByBrand; show_data_table := false |}
           (stale mixed)) "grouped_data".
Proof.
  pose proof (cells_depend_on_df_and_selection
                by_brand_shown {| selected := ByBrand; show_data_table := false |}
                (fresh mixed) (stale mixed) mixed
                (eq_refl : fresh mixed "df" = Some (VFrame mixed))
                (eq_refl : stale mixed "df" = Some (VFrame mixed))
                (eq_refl : selected by_brand_shown = ByBrand)) as H.
  split; [reflexivity |].
  destruct H as [[_ [Hg _]] [[_ [_ [_ [Hm _]]]] _]].
  split; [exact Hm | exact Hg].
Defined.

(** * Further properties of the cells *)

Import Queries.

(** ** Group-by: order of the rows does not matter *)

Section GroupByOrder.
Local Open Scope Z_scope.

Lemma key_lt_trans (x y z : string * Z) : key_lt x y -> key_lt y z -> key_lt x z.
Proof. unfold key_lt. apply compare_lt_trans. Qed.

Lemma sorted_head_below (a : string * Z) (g : list (string * Z)) :
  Sorted key_lt (a :: g) -> Forall (key_lt a) g.
Proof.
  intros Hs. apply Sorted_StronglySorted in Hs.
  - now inversion Hs.
  - intros x y z. apply key_lt_trans.
Qed.






Variable R : Type.
Variables (key : R -> option string) (val : R -> Z).




End GroupByOrder.

(** ** [unique], [mean] and reordering *)

Lemma option_string_eqb_eq (a b : option string) :
  option_string_eqb a b = true <-> a = b.
Proof.
  destruct a as [x |], b as [y |]; simpl; split; intros H;
    try discriminate; try reflexivity.
  - apply String.eqb_eq in H. now subst.
  - injection H as ->. apply String.eqb_refl.
Qed.

Lemma seen_before (x : option string) (seen : list (option string)) :
  existsb (option_string_eqb x) seen = true <-> In x seen.
Proof.
  rewrite existsb_exists. split.
  - intros [y [Hy E]]. apply option_string_eqb_eq in E. now subst.
  - intros Hin. exists x. split; [exact Hin | now apply option_string_eqb_eq].
Qed.

Lemma unique_from (xs seen : list (option string)) :
  NoDup seen ->
  NoDup (fold_left (fun seen x => if existsb (option_string_eqb x) seen
                                  then seen else seen ++ [x]) xs seen) /\
  forall y, In y (fold_left (fun seen x => if existsb (option_string_eqb x) seen
                                           then seen else seen ++ [x]) xs seen) <->
            In y seen \/ In y xs.
Proof.
  revert seen. induction xs as [| x xs IH]; intros seen Hnd; simpl.
  - split; [exact Hnd | tauto].
  - destruct (existsb (option_string_eqb x) seen) eqn:E.
    + destruct (IH seen Hnd) as [Hn Hi]. split; [exact Hn |].
      intros y. rewrite Hi. apply seen_before in E.
      split; [tauto |]. intros [H | [<- | H]]; tauto.
    + assert (Hx : ~ In x seen).
      { intros Hin. apply seen_before in Hin. congruence. }
      assert (Hnd' : NoDup (seen ++ [x])).
      { apply (Permutation_NoDup (Permutation_cons_append seen x)).
        now constructor. }
      destruct (IH (seen ++ [x]) Hnd') as [Hn Hi]. split; [exact Hn |].
      intros y. rewrite Hi, in_app_iff. simpl. tauto.
Qed.

(** [unique] lists every value of the column once. *)
Lemma unique_NoDup (xs : list (option string)) : NoDup (unique xs).
Proof. apply (unique_from xs []). constructor. Qed.

Lemma unique_In (xs : list (option string)) (y : option string) :
  In y (unique xs) <-> In y xs.
Proof.
  unfold unique. rewrite (proj2 (unique_from xs [] (NoDup_nil _))). simpl. tauto.
Qed.



Lemma NoDup_map_Some (ks : list string) :
  NoDup ks -> NoDup (map (@Some string) ks).
Proof.
  induction 1 as [| k ks Hk _ IH]; simpl; constructor; [| exact IH].
  intros Hin. apply in_map_iff in Hin. destruct Hin as [k' [E Hin]].
  injection E as ->. contradiction.
Qed.

Lemma some_key_missing (g : grouping) (d : dataframe) :
  existsb (key_missing g) d = true <-> In None (map (key_of g) d).
Proof.
  rewrite existsb_exists, in_map_iff. unfold key_missing.
  split; intros [r [H1 H2]]; exists r.
  - split; [| exact H1]. destruct (key_of g r); [discriminate | reflexivity].
  - split; [exact H2 |]. now rewrite H1.
Qed.

(** The values of the grouping column, each once: the labels of the grouped
    table, and the missing value when some row lacks the column. *)
Lemma unique_keys_length (g : grouping) (d : dataframe) :
  List.length (unique (map (key_of g) d)) =
  (List.length (grouped g d) + if existsb (key_missing g) d then 1 else 0)%nat.
Proof.
  set (extra := if existsb (key_missing g) d then [@None string] else []).
  assert (Hlen : (List.length (map (@Some string) (map fst (grouped g d)) ++ extra) =
                  List.length (grouped g d) + if existsb (key_missing g) d then 1 else 0)%nat).
  { rewrite length_app, !length_map. unfold extra.
    destruct (existsb (key_missing g) d); reflexivity. }
  rewrite <- Hlen. apply Permutation_length. apply NoDup_Permutation.
  - apply unique_NoDup.
  - apply NoDup_app.
    + apply NoDup_map_Some. apply groupby_sum_NoDup.
    + unfold extra. destruct (existsb (key_missing g) d); repeat constructor. intros [].
    + intros a Ha Hb. apply in_map_iff in Ha. destruct Ha as [k [<- _]].
      unfold extra in Hb. destruct (existsb (key_missing g) d); simpl in Hb.
      * destruct Hb as [Hb | []]. discriminate Hb.
      * exact Hb.
  - intros y. rewrite unique_In, in_app_iff. destruct y as [k |].
    + split.
      * intros Hin. left. apply in_map. unfold grouped.
        apply groupby_sum_keys. apply in_map_iff in Hin.
        destruct Hin as [r [Hk Hr]]. now exists r.
      * intros [Hin | Hin].
        -- apply in_map_iff in Hin. destruct Hin as [k' [E Hin]]. injection E as ->.
           unfold grouped in Hin. apply groupby_sum_keys in Hin.
           destruct Hin as [r [Hr Hk]]. apply in_map_iff. now exists r.
        -- unfold extra in Hin. destruct (existsb (key_missing g) d); simpl in Hin.
           ++ destruct Hin as [Hin | []]. discriminate Hin.
           ++ destruct Hin.
    + rewrite <- some_key_missing. unfold extra. split.
      * intros E. right. rewrite E. now left.
      * intros [Hin | Hin].
        -- apply in_map_iff in Hin. destruct Hin as [k [E _]]. discriminate E.
        -- destruct (existsb (key_missing g) d); [reflexivity | destruct Hin].
Qed.

(** ** More on the two cells *)

Lemma dashboard_page_ok (w : widgets) (ns : namespace) (d : dataframe) (name : string) :
  ns "df" = Some (VFrame d) ->
  idxmax (grouped (selected w) d) = Ok name ->
  rendered (run_cell py_dashboard w ns) =
    [ Title "📊 Sales Data Dashboard";
      Selectbox "Select grouping option:" ["BRAND"; "STATE"] 0;
      Columns 3;
      Metric 0 "Total Sales Quantity"
        (Format ",.0f" (Fin (inject_Z (sum (map TOTALSALESQUANTITY d))))) None;
      Metric 1 (average_label (selected w))
        (Format ",.0f" (mean (map TOTALSALESQUANTITY d)))
        (Some (average_delta (selected w) d));
      Metric 2 (String.append "Top " (title (key_name (selected w))))
        (Format ",.0f" (max (map snd (grouped (selected w) d))))
        (Some (Str name));
      Subheader (chart_title_of (selected w));
      BarChart (grouped (selected w) d);
      Checkbox "Show data table" ] ++
    (if show_data_table w
     then [ Subheader "Grouped Data";
            DataFrame (key_name (selected w)) (grouped (selected w) d) ]
     else []).
Proof.
  intros H Hidx. destruct w as [[|] show]; cbv [grouped key_of selected] in Hidx;
    run_cell_with H; rewrite Hidx; destruct show; reflexivity.
Qed.

(** Run before [df] is bound, a cell stops at its first use of [df]. *)
Lemma cell_without_df (w : widgets) (ns : namespace) :
  ns "df" = None ->
  (outcome (run_cell py_visualization w ns) = Raise (NameError "df") /\
   rendered (run_cell py_visualization w ns) =
     [ Title "📊 Sales Data Interactive Visualization";
       Selectbox "Select grouping option:" ["BRAND"; "STATE"] 0 ] /\
   final (run_cell py_visualization w ns) "group_by" =
     Some (VStr (key_name (selected w))) /\
   final (run_cell py_visualization w ns) "grouped_data" = ns "grouped_data") /\
  (outcome (run_cell py_dashboard w ns) = Raise (NameError "df") /\
   rendered (run_cell py_dashboard w ns) =
     [ Title "📊 Sales Data Dashboard";
       Selectbox "Select grouping option:" ["BRAND"; "STATE"] 0 ] /\
   final (run_cell py_dashboard w ns) "group_by" =
     Some (VStr (key_name (selected w))) /\
   final (run_cell py_dashboard w ns) "grouped_data" = ns "grouped_data").
Proof.
  intros H. destruct w as [[|] show]; run_cell_with H; repeat split; reflexivity.
Qed.

Lemma sorted_split_after (x : string * Z) (pre post : list (string * Z)) :
  Sorted key_lt (pre ++ x :: post) -> Forall (key_lt x) post.
Proof.
  induction pre as [| a pre IH]; simpl; intros Hs.
  - now apply sorted_head_below.
  - apply IH. now inversion Hs.
Qed.

Lemma grouped_nonempty_iff (g : grouping) (d : dataframe) :
  grouped g d <> [] <-> exists r, In r d /\ key_missing g r = false.
Proof.
  unfold key_missing. split.
  - intros Hne. destruct (grouped g d) as [| [k s] G] eqn:E; [congruence |].
    assert (Hk : In k (map fst (grouped g d))) by (rewrite E; simpl; now left).
    unfold grouped in Hk. apply groupby_sum_keys in Hk.
    destruct Hk as [r [Hr Hk]]. exists r. split; [exact Hr | now rewrite Hk].
  - intros [r [Hr Hk]] E. destruct (key_of g r) as [k |] eqn:Ek; [| discriminate].
    assert (Hin : In k (map fst (grouped g d))).
    { unfold grouped. apply groupby_sum_keys. now exists r. }
    rewrite E in Hin. destruct Hin.
Qed.

Lemma grouped_all_missing (g : grouping) (d : dataframe) :
  (forall r, In r d -> key_missing g r = true) -> grouped g d = [].
Proof.
  intros Hall. destruct (grouped g d) as [| b G] eqn:E; [reflexivity |].
  assert (Hne : grouped g d <> []) by (rewrite E; discriminate).
  apply grouped_nonempty_iff in Hne. destruct Hne as [r [Hr Hk]].
  rewrite (Hall r Hr) in Hk. discriminate.
Qed.

Lemma idxmax_ok_iff {K : Type} (s : list (K * Z)) :
  (exists name, idxmax s = Ok name) <-> s <> [].
Proof.
  split.
  - intros [name H] ->. discriminate H.
  - intros Hne. destruct (idxmax_max K s Hne) as [name [_ [_ [_ [H _]]]]]. now exists name.
Qed.


Lemma sum_filter_bounds {A : Type} (val : A -> Z) (f : A -> bool) (l : list A) :
  (forall a, In a l -> (0 <= val a)%Z) ->
  (0 <= exact_sum (map val (filter f l)) <= exact_sum (map val l))%Z.
Proof.
  unfold exact_sum. induction l as [| a l IH]; simpl; intros Hpos; [lia |].
  assert (Ha : (0 <= val a)%Z) by (apply Hpos; now left).
  assert (Hl : forall b, In b l -> (0 <= val b)%Z) by (intros b Hb; apply Hpos; now right).
  specialize (IH Hl). destruct (f a); simpl; lia.
Qed.

Lemma sum_split_filter {A : Type} (val : A -> Z) (f : A -> bool) (l : list A) :
  (exact_sum (map val (filter f l)) +
   exact_sum (map val (filter (fun a => negb (f a)) l)) =
   exact_sum (map val l))%Z.
Proof.
  unfold exact_sum. induction l as [| a l IH]; simpl; [reflexivity |].
  destruct (f a); simpl; lia.
Qed.



(** X2: every chart either cell draws has its bars in strictly ascending
    order of label, one bar per label, whatever the order of [df] (the
    query's ORDER BY on the quantity does not carry over to the chart). *)
Theorem charts_in_label_order (w : widgets) (ns : namespace) (d : dataframe) :
  ns "df" = Some (VFrame d) ->
  Forall (fun bars => Sorted key_lt bars /\ NoDup (map fst bars))
         (charts (rendered (run_cell py_visualization w ns)) ++
          charts (rendered (run_cell py_dashboard w ns))).
Proof.
  intros H.
  assert (Hs : Sorted key_lt (grouped (selected w) d) /\
               NoDup (map fst (grouped (selected w) d))).
  { split; [apply groupby_sum_sorted | apply groupby_sum_NoDup]. }
  destruct (visualization_run w ns d H) as [_ [Vp _]].
  assert (Vc : charts (rendered (run_cell py_visualization w ns)) =
               [grouped (selected w) d]).
  { rewrite Vp. destruct (show_data_table w); reflexivity. }
  rewrite Vc. constructor; [exact Hs |].
  destruct (idxmax (grouped (selected w) d)) as [name | e] eqn:Hidx.
  - destruct (dashboard_run_ok w ns d name H Hidx) as [_ [_ [C _]]].
    rewrite C. constructor; [exact Hs | constructor].
  - destruct (dashboard_run_raise w ns d e H Hidx) as [_ P].
    rewrite P. constructor.
Qed.

Lemma charts_in_label_order_witness :
  Forall (fun bars => Sorted key_lt bars /\ NoDup (map fst bars))
         (charts (rendered (run_cell py_visualization by_brand_shown (fresh mixed))) ++
          charts (rendered (run_cell py_dashboard by_brand_shown (fresh mixed)))).
Proof.
  exact (charts_in_label_order by_brand_shown (fresh mixed) mixed
           (eq_refl : fresh mixed "df" = Some (VFrame mixed))).
Defined.

(** X3: when the dashboard completes, the name under the third card is the
    label of a group with the largest sum, and among the groups that tie for
    the largest sum it is the first in label order. *)
Theorem top_performer_first_label (w : widgets) (ns : namespace) (d : dataframe) :
  ns "df" = Some (VFrame d) ->
  outcome (run_cell py_dashboard w ns) = Ok tt ->
  exists name top,
    final (run_cell py_dashboard w ns) "top_performer_name" = Some (VStr name) /\
    final (run_cell py_dashboard w ns) "top_performer" = Some (VNum (Fin (inject_Z top))) /\
    In (name, top) (grouped (selected w) d) /\
    forall k s, In (k, s) (grouped (selected w) d) ->
      (s <= top)%Z /\ (s = top -> label_le name k).
Proof.
  intros H Hok.
  assert (Hne : grouped (selected w) d <> []).
  { intros E. destruct (dashboard_run_raise w ns d
                 (ValueError "attempt to get argmax of an empty sequence") H) as [O _].
    - rewrite E. reflexivity.
    - rewrite O in Hok. discriminate Hok. }
  destruct (idxmax_max _ _ Hne) as [name [top [pre [post [Hidx [Hmax [Hsplit [Hpre Hpost]]]]]]]].
  destruct (dashboard_run_ok w ns d name H Hidx) as [_ [_ [_ Hn]]].
  destruct (dashboard_bindings w ns d H) as [_ [_ [_ Ht]]].
  exists name, top. split; [exact Hn |]. split; [now rewrite Ht, Hmax |].
  split; [rewrite Hsplit; apply in_elt |].
  intros k s Hin.
  pose proof (groupby_sum_sorted _ (key_of (selected w)) TOTALSALESQUANTITY d) as Hs.
  fold (grouped (selected w) d) in Hs. rewrite Hsplit in Hs, Hin.
  apply sorted_split_after in Hs. rewrite Forall_forall in Hs, Hpre, Hpost.
  apply in_app_or in Hin. destruct Hin as [Hin | [E | Hin]].
  - specialize (Hpre _ Hin). simpl in Hpre. split; lia.
  - injection E as <- <-. split; [lia | intros _; now left].
  - specialize (Hpost _ Hin). specialize (Hs _ Hin). simpl in Hpost.
    split; [exact Hpost | intros _; right; exact Hs].
Qed.

Lemma top_performer_first_label_witness :
  grouped ByBrand mixed = [("amalgamalg #1", 10%Z); ("scholarmaxi #2", 10%Z)] /\
  exists name top,
    final (run_cell py_dashboard by_brand_shown (fresh mixed)) "top_performer_name" =
      Some (VStr name) /\
    forall k s, In (k, s) (grouped ByBrand mixed) ->
      (s <= top)%Z /\ (s = top -> label_le name k).
Proof.
  destruct (top_performer_first_label by_brand_shown (fresh mixed) mixed
              (eq_refl : fresh mixed "df" = Some (VFrame mixed))
              (eq_refl : outcome (run_cell py_dashboard by_brand_shown (fresh mixed)) = Ok tt))
    as [name [top [Hn [_ [_ Hall]]]]].
  split; [reflexivity |]. exists name, top. split; [exact Hn | exact Hall].
Defined.

(** X4: the dashboard completes exactly when some row of [df] has the
    selected grouping column present. When every row lacks it (the empty
    table, or a table whose BRAND or STATE is all missing), the cell raises
    ValueError at [idxmax] with only the title and the selection widget on the
    page. *)
Theorem dashboard_completes_iff_some_key (w : widgets) (ns : namespace) (d : dataframe) :
  ns "df" = Some (VFrame d) ->
  (outcome (run_cell py_dashboard w ns) = Ok tt <->
   exists r, In r d /\ key_missing (selected w) r = false) /\
  ((forall r, In r d -> key_missing (selected w) r = true) ->
   outcome (run_cell py_dashboard w ns) =
     Raise (ValueError "attempt to get argmax of an empty sequence") /\
   rendered (run_cell py_dashboard w ns) =
     [ Title "📊 Sales Data Dashboard";
       Selectbox "Select grouping option:" ["BRAND"; "STATE"] 0 ]).
Proof.
  intros H. split.
  - rewrite <- grouped_nonempty_iff. split.
    + intros Hok E.
      destruct (dashboard_run_raise w ns d
                  (ValueError "attempt to get argmax of an empty sequence") H) as [O _].
      * rewrite E. reflexivity.
      * rewrite O in Hok. discriminate Hok.
    + intros Hne. apply idxmax_ok_iff in Hne. destruct Hne as [name Hidx].
      now destruct (dashboard_run_ok w ns d name H Hidx) as [O _].
  - intros Hall. apply (dashboard_run_raise w ns d _ H).
    rewrite (grouped_all_missing _ _ Hall). reflexivity.
Qed.

Lemma dashboard_completes_iff_some_key_witness :
  no_brand <> [] /\
  outcome (run_cell py_dashboard by_brand_shown (fresh no_brand)) =
    Raise (ValueError "attempt to get argmax of an empty sequence").
Proof.
  assert (Hall : forall r, In r no_brand -> key_missing (selected by_brand_shown) r = true).
  { intros r [<- | []]. reflexivity. }
  pose proof (dashboard_completes_iff_some_key by_brand_shown (fresh no_brand) no_brand
                (eq_refl : fresh no_brand "df" = Some (VFrame no_brand))) as H.
  split; [discriminate |]. exact (proj1 (proj2 H Hall)).
Defined.

(** X5: the visualization cell completes on every table, the empty one
    included, and draws exactly one chart, of the grouped table. When no row
    has the selected column the chart has no bar; when the checkbox is ticked
    the table under it holds the chart's data. *)
Theorem visualization_always_completes (w : widgets) (ns : namespace) (d : dataframe) :
  ns "df" = Some (VFrame d) ->
  outcome (run_cell py_visualization w ns) = Ok tt /\
  charts (rendered (run_cell py_visualization w ns)) = [grouped (selected w) d] /\
  ((forall r, In r d -> key_missing (selected w) r = true) ->
   charts (rendered (run_cell py_visualization w ns)) = [[]]) /\
  (show_data_table w = true ->
   In (DataFrame (key_name (selected w)) (grouped (selected w) d))
      (rendered (run_cell py_visualization w ns))).
Proof.
  intros H. destruct (visualization_run w ns d H) as [Vo [Vp _]].
  assert (Vc : charts (rendered (run_cell py_visualization w ns)) =
               [grouped (selected w) d]).
  { rewrite Vp. destruct (show_data_table w); reflexivity. }
  split; [exact Vo |]. split; [exact Vc |]. split.
  - intros Hall. rewrite Vc, (grouped_all_missing _ _ Hall). reflexivity.
  - intros Hshow. rewrite Vp, Hshow. apply in_or_app. right. right. now left.
Qed.

Lemma visualization_always_completes_witness :
  outcome (run_cell py_visualization by_state_hidden (fresh [])) = Ok tt /\
  charts (rendered (run_cell py_visualization by_state_hidden (fresh []))) = [[]].
Proof.
  pose proof (visualization_always_completes by_state_hidden (fresh []) []
                (eq_refl : fresh [] "df" = Some (VFrame []))) as H.
  split; [exact (proj1 H) | exact (proj1 (proj2 H))].
Defined.

(** X6: run while [df] is not bound (the cell [df] has not run), each of the
    two cells raises NameError for [df]. By then it has drawn its title and
    the selection widget and bound [group_by]; it leaves [grouped_data] as it
    was. *)
Theorem cells_need_df (w : widgets) (ns : namespace) :
  ns "df" = None ->
  Forall (fun c =>
            outcome (run_cell c w ns) = Raise (NameError "df") /\
            List.length (rendered (run_cell c w ns)) = 2%nat /\
            metrics (rendered (run_cell c w ns)) = [] /\
            charts (rendered (run_cell c w ns)) = [] /\
            final (run_cell c w ns) "group_by" = Some (VStr (key_name (selected w))) /\
            final (run_cell c w ns) "grouped_data" = ns "grouped_data")
         [py_visualization; py_dashboard].
Proof.
  intros H. destruct (cell_without_df w ns H) as [[V1 [V2 [V3 V4]]] [D1 [D2 [D3 D4]]]].
  constructor; [| constructor; [| constructor]].
  - rewrite V2. repeat split; assumption.
  - rewrite D2. repeat split; assumption.
Qed.

Lemma cells_need_df_witness :
  outcome (run_cell py_dashboard by_brand_shown no_bindings) = Raise (NameError "df") /\
  outcome (run_cell py_visualization by_brand_shown no_bindings) = Raise (NameError "df").
Proof.
  pose proof (cells_need_df by_brand_shown no_bindings
                (eq_refl : no_bindings "df" = None)) as H.
  rewrite Forall_forall in H. split.
  - apply (H py_dashboard). right. now left.
  - apply (H py_visualization). now left.
Defined.

(** X7: with STATE selected, the count under the second card is the number
    of bars of the chart, plus one when some row of [df] has no STATE: the
    count takes the missing value for a state, the chart drops it. *)
Theorem state_count_counts_missing (w : widgets) (ns : namespace) (d : dataframe) :
  ns "df" = Some (VFrame d) ->
  selected w = ByState ->
  outcome (run_cell py_dashboard w ns) = Ok tt ->
  charts (rendered (run_cell py_dashboard w ns)) = [grouped ByState d] /\
  In (Metric 1 "Average Sales per State"
        (Format ",.0f" (mean (map TOTALSALESQUANTITY d)))
        (Some (Cat (FormatLen (List.length (grouped ByState d) +
                               if existsb (key_missing ByState) d then 1 else 0))
                   (Str " state(s)"))))
     (rendered (run_cell py_dashboard w ns)).
Proof.
  intros H Hsel Hok.
  destruct (idxmax (grouped (selected w) d)) as [name | e] eqn:Hidx.
  - pose proof (dashboard_page_ok w ns d name H Hidx) as P.
    destruct (dashboard_run_ok w ns d name H Hidx) as [_ [_ [C _]]].
    rewrite Hsel in *. split; [exact C |].
    rewrite <- (unique_keys_length ByState d).
    rewrite P. apply in_or_app. left. do 4 right. left. reflexivity.
  - destruct (dashboard_run_raise w ns d e H Hidx) as [O _].
    rewrite O in Hok. discriminate Hok.
Qed.

Lemma state_count_counts_missing_witness :
  In (Metric 1 "Average Sales per State" (Format ",.0f" (Fin 5))
        (Some (Cat (FormatLen 2) (Str " state(s)"))))
     (rendered (run_cell py_dashboard by_state_hidden
                  (fresh [books (Some "amalgamalg #1") (Some "TX") 4;
                          books (Some "amalgamalg #1") None 6]))) /\
  charts (rendered (run_cell py_dashboard by_state_hidden
                      (fresh [books (Some "amalgamalg #1") (Some "TX") 4;
                              books (Some "amalgamalg #1") None 6]))) =
    [[("TX", 4%Z)]].
Proof.
  destruct (state_count_counts_missing by_state_hidden
              (fresh [books (Some "amalgamalg #1") (Some "TX") 4;
                      books (Some "amalgamalg #1") None 6])
              [books (Some "amalgamalg #1") (Some "TX") 4;
               books (Some "amalgamalg #1") None 6]
              eq_refl eq_refl eq_refl) as [C M].
  split; [exact M | exact C].
Defined.

(** X9: the sums of the groups and the quantities of the rows that lack the
    grouping column add up to [total_sales] (in [int64], as every sum of the
    cell): the chart falls short of the "Total Sales Quantity" card by exactly
    the quantity of the dropped rows. *)
Theorem group_sums_and_missing_rows (w : widgets) (ns : namespace) (d : dataframe) :
  ns "df" = Some (VFrame d) ->
  final (run_cell py_dashboard w ns) "total_sales" =
    Some (VInt (wrap64
                  (sum (map snd (grouped (selected w) d)) +
                   sum (map TOTALSALESQUANTITY (filter (key_missing (selected w)) d))))).
Proof.
  intros H. destruct (dashboard_bindings w ns d H) as [_ [Ht _]].
  rewrite Ht. do 2 f_equal. unfold grouped. rewrite groupby_sum_sum.
  rewrite !sum_exact, wrap64_add_l, wrap64_add_r. f_equal.
  rewrite <- (sum_split_filter TOTALSALESQUANTITY
                (fun r => match key_of (selected w) r with
                          | Some _ => true | None => false end) d).
  unfold keyed. f_equal. f_equal. f_equal. apply filter_ext.
  intros r. unfold key_missing. destruct (key_of (selected w) r); reflexivity.
Qed.

Lemma group_sums_and_missing_rows_witness :
  final (run_cell py_dashboard by_brand_shown (fresh no_brand)) "total_sales" =
    Some (VInt 1).
Proof.
  exact (group_sums_and_missing_rows by_brand_shown (fresh no_brand) no_brand eq_refl).
Defined.

(** X10: when no quantity of [df] is negative and the quantities add up to
    less than [2^63] (no [int64] sum wraps), every bar of every chart lies
    between 0 and the sum of TOTALSALESQUANTITY over [df], which is what
    [total_sales] holds; so does the value of the "Top" card. *)
Theorem bars_within_total (w : widgets) (ns : namespace) (d : dataframe) :
  ns "df" = Some (VFrame d) ->
  (forall r, In r d -> (0 <= TOTALSALESQUANTITY r)%Z) ->
  (exact_sum (map TOTALSALESQUANTITY d) < 2 ^ 63)%Z ->
  final (run_cell py_dashboard w ns) "total_sales" =
    Some (VInt (exact_sum (map TOTALSALESQUANTITY d))) /\
  Forall (Forall (fun bar => (0 <= snd bar <= exact_sum (map TOTALSALESQUANTITY d))%Z))
         (charts (rendered (run_cell py_visualization w ns)) ++
          charts (rendered (run_cell py_dashboard w ns))) /\
  (outcome (run_cell py_dashboard w ns) = Ok tt ->
   exists top, final (run_cell py_dashboard w ns) "top_performer" =
                 Some (VNum (Fin (inject_Z top))) /\
               (0 <= top <= exact_sum (map TOTALSALESQUANTITY d))%Z).
Proof.
  intros H Hpos Hfit.
  assert (Hmag : magnitude (map TOTALSALESQUANTITY d) = exact_sum (map TOTALSALESQUANTITY d)).
  { clear - Hpos. unfold magnitude, exact_sum.
    induction d as [| r d IH]; simpl; [reflexivity |].
    rewrite IH by (intros r' Hr'; apply Hpos; now right).
    specialize (Hpos r (or_introl eq_refl)). lia. }
  assert (Hin63 : (magnitude (map TOTALSALESQUANTITY d) < 2 ^ 63)%Z) by (rewrite Hmag; exact Hfit).
  assert (Hbars : Forall (fun bar => (0 <= snd bar <= exact_sum (map TOTALSALESQUANTITY d))%Z)
                         (grouped (selected w) d)).
  { apply Forall_forall. intros [k s] Hin. simpl.
    rewrite (groupby_sum_total _ _ _ _ _ _ Hin).
    rewrite (group_total_in_range _ _ _ _ Hin63).
    now apply sum_filter_bounds. }
  destruct (visualization_run w ns d H) as [_ [Vp _]].
  assert (Vc : charts (rendered (run_cell py_visualization w ns)) =
               [grouped (selected w) d]).
  { rewrite Vp. destruct (show_data_table w); reflexivity. }
  destruct (dashboard_bindings w ns d H) as [_ [Hsum [_ Ht]]].
  split; [now rewrite Hsum, (sum_in_range _ Hin63) |].
  destruct (idxmax (grouped (selected w) d)) as [name | e] eqn:Hidx.
  - destruct (dashboard_run_ok w ns d name H Hidx) as [_ [_ [C _]]].
    split; [rewrite Vc, C; repeat constructor; exact Hbars |].
    intros _.
    assert (Hne : grouped (selected w) d <> []).
    { apply idxmax_ok_iff. now exists name. }
    destruct (idxmax_max _ _ Hne) as [name' [top [pre [post [_ [Hmax [Hsplit _]]]]]]].
    exists top. split; [now rewrite Ht, Hmax |].
    rewrite Forall_forall in Hbars.
    apply (Hbars (name', top)). rewrite Hsplit. apply in_elt.
  - destruct (dashboard_run_raise w ns d e H Hidx) as [O P].
    split; [rewrite Vc, P; repeat constructor; exact Hbars |].
    intros Hok. rewrite O in Hok. discriminate Hok.
Qed.

Lemma bars_within_total_witness :
  Forall (Forall (fun bar => (0 <= snd bar <= 20)%Z))
         (charts (rendered (run_cell py_visualization by_state_hidden (fresh mixed))) ++
          charts (rendered (run_cell py_dashboard by_state_hidden (fresh mixed)))).
Proof.
  assert (Hpos : forall r, In r mixed -> (0 <= TOTALSALESQUANTITY r)%Z).
  { intros r Hr. simpl in Hr.
    repeat (destruct Hr as [<- | Hr]; [simpl; lia |]). destruct Hr. }
  assert (Hfit : (exact_sum (map TOTALSALESQUANTITY mixed) < 2 ^ 63)%Z) by reflexivity.
  exact (proj1 (proj2 (bars_within_total by_state_hidden (fresh mixed) mixed eq_refl Hpos Hfit))).
Defined.

(** ** Re-running the notebook, and the queries *)

Lemma filter_twice {A : Type} (f : A -> bool) (l : list A) :
  filter f (filter f l) = filter f l.
Proof.
  induction l as [| a l IH]; simpl; [reflexivity |].
  destruct (f a) eqn:E; simpl; [rewrite E, IH; reflexivity | exact IH].
Qed.

Lemma filter_complement {A : Type} (f : A -> bool) (l : list A) :
  filter f (filter (fun a => negb (f a)) l) = [].
Proof.
  induction l as [| a l IH]; simpl; [reflexivity |].
  destruct (f a) eqn:E; simpl; [exact IH | rewrite E; exact IH].
Qed.

Lemma ident_eqb_refl (a : string) : ident_eqb a a = true.
Proof. apply String.eqb_refl. Qed.

Lemma option_ident_eqb_refl (a : option string) : option_ident_eqb a a = true.
Proof. destruct a; simpl; [apply ident_eqb_refl | reflexivity]. Qed.

(** Creating a view again in the same database and schema replaces the stored
    entry: the catalog after two creations is the catalog after one, and it
    holds one entry for the view. *)
Lemma create_twice (v : semantic_view) (w : warehouse) :
  exec (CreateOrReplaceSemanticView v) (exec (CreateOrReplaceSemanticView v) w) =
  exec (CreateOrReplaceSemanticView v) w /\
  filter (same_object w v) (w_semantic_views (exec (CreateOrReplaceSemanticView v) w)) =
    [ {| e_database := w_database w; e_schema := w_schema w; e_view := v |} ].
Proof.
  assert (Hsame : same_object w v
            {| e_database := w_database w; e_schema := w_schema w; e_view := v |} = true).
  { unfold same_object. simpl.
    now rewrite !option_ident_eqb_refl, ident_eqb_refl. }
  split.
  - simpl. unfold create_or_replace. simpl. f_equal. f_equal.
    change (same_object
              {| w_role := w_role w; w_database := w_database w; w_schema := w_schema w;
                 w_semantic_views :=
                   {| e_database := w_database w; e_schema := w_schema w; e_view := v |}
                   :: filter (fun e => negb (same_object w v e)) (w_semantic_views w) |} v)
      with (same_object w v).
    rewrite Hsame. simpl. apply filter_twice.
  - simpl. unfold create_or_replace. simpl. rewrite Hsame. f_equal.
    apply filter_complement.
Qed.

(** X11: running all the SQL cells a second time changes nothing: the
    warehouse state after two runs is the state after one, and in either case
    the catalog holds exactly one semantic view of that name in the selected
    database and schema, whatever it held before. *)
Theorem rerun_replaces_view (w : warehouse) :
  run statements (run statements w) = run statements w /\
  filter (same_object (run statements w) TPCDS_SEMANTIC_VIEW_SM)
         (w_semantic_views (run statements w)) = [stored_view].
Proof.
  set (session := {| w_role := Some "accountadmin";
                     w_database := Some "<mdt3_default_database##>";
                     w_schema := Some "default_schema";
                     w_semantic_views := w_semantic_views w |}).
  assert (Hone : run statements w =
                 exec (CreateOrReplaceSemanticView TPCDS_SEMANTIC_VIEW_SM) session)
    by reflexivity.
  assert (Htwo : run statements (run statements w) =
                 exec (CreateOrReplaceSemanticView TPCDS_SEMANTIC_VIEW_SM)
                      (exec (CreateOrReplaceSemanticView TPCDS_SEMANTIC_VIEW_SM) session))
    by reflexivity.
  destruct (create_twice TPCDS_SEMANTIC_VIEW_SM session) as [Hidem Hentry].
  split.
  - rewrite Htwo, Hone. exact Hidem.
  - rewrite Hone. exact Hentry.
Qed.

Lemma joins_references (sv : semantic_view) (m n : string * string) :
  joins sv m n = true ->
  upper (fst n) = upper (fst m) \/ references sv (upper (fst m)) (upper (fst n)).
Proof.
  unfold joins. intros H. apply orb_true_iff in H. destruct H as [H | H].
  - left. now apply String.eqb_eq.
  - right. apply existsb_exists in H. destruct H as [r [Hr H]].
    apply andb_true_iff in H. destruct H as [H1 H2].
    apply String.eqb_eq in H1, H2. exists r. repeat split; congruence.
Qed.

Lemma forallb_singletons {A B : Type} (find : A -> list B) (f : A -> B -> bool)
    (l : list B) (ns : list A) :
  (forall n, find n = filter (f n) l) ->
  forallb (fun n => match find n with [_] => true | _ => false end) ns = true ->
  Forall (fun n => exists! m, In m l /\ f n m = true) ns.
Proof.
  intros Hfind H. rewrite forallb_forall in H. apply Forall_forall. intros n Hn.
  specialize (H n Hn). rewrite Hfind in H.
  destruct (filter (f n) l) as [| m [| m' l']] eqn:E; try discriminate.
  now apply (filter_singleton_unique _ _ m).
Qed.

Lemma check_query_sound (sv : semantic_view) (q : semantic_query) :
  check_query sv q = true -> resolves sv q.
Proof.
  unfold check_query, resolves. intros H.
  repeat (apply andb_true_iff in H; destruct H as [H ?]).
  split; [assumption |].
  split; [now apply (forallb_singletons (find_dimension sv) names) |].
  split; [now apply (forallb_singletons (find_metric sv) names) |].
  split.
  - apply Forall_forall. intros c Hc.
    match goal with Hw : forallb _ (q_where q) = true |- _ =>
      rewrite forallb_forall in Hw; specialize (Hw c Hc);
      apply existsb_exists in Hw; destruct Hw as [n [Hn Hw]];
      apply andb_true_iff in Hw; destruct Hw end.
    exists n. auto.
  - split.
    + match goal with Ho : existsb _ (q_metrics q) = true |- _ =>
        apply existsb_exists in Ho; destruct Ho as [n [Hn Ho]] end.
      exists n. auto.
    + apply Forall_forall. intros m Hm. apply Forall_forall. intros n Hn.
      match goal with Hj : forallb _ (q_metrics q) = true |- _ =>
        rewrite forallb_forall in Hj; specialize (Hj m Hm);
        rewrite forallb_forall in Hj; exact (Hj n Hn) end.
Qed.

(** X12: the two SELECT ... FROM SEMANTIC_VIEW queries fit the declaration.
    Each names the view that was created; each of its dimensions and its
    metric names exactly one declared dimension or metric; every filter is on
    a dimension of the query; the ordering column is its metric; every
    dimension's table is referenced by the metric's table; and the result has
    the columns BRAND, STATE and TOTALSALESQUANTITY the Streamlit cells read. *)
Theorem queries_resolve (q : semantic_query) :
  In q semantic_queries ->
  resolves TPCDS_SEMANTIC_VIEW_SM q /\
  Forall (fun m => Forall (fun n => references TPCDS_SEMANTIC_VIEW_SM
                                      (upper (fst m)) (upper (fst n)))
                          (q_dimensions q))
         (q_metrics q) /\
  result_columns q =
    ["BRAND"; "CATEGORY"; "YEAR"; "MONTH"; "STATE"; "TOTALSALESQUANTITY"].
Proof.
  intros Hin.
  assert (Hcheck : check_query TPCDS_SEMANTIC_VIEW_SM q = true /\
                   forallb (fun m => forallb (fun n => negb (ident_eqb (fst n) (fst m)))
                                             (q_dimensions q)) (q_metrics q) = true /\
                   result_columns q =
                     ["BRAND"; "CATEGORY"; "YEAR"; "MONTH"; "STATE"; "TOTALSALESQUANTITY"]).
  { simpl in Hin. destruct Hin as [<- | [<- | []]]; repeat split; vm_compute; reflexivity. }
  destruct Hcheck as [Hc [Hother Hcols]].
  pose proof (check_query_sound _ _ Hc) as Hr.
  split; [exact Hr |]. split; [| exact Hcols].
  destruct Hr as [_ [_ [_ [_ [_ Hj]]]]].
  rewrite Forall_forall in Hj. apply Forall_forall. intros m Hm.
  specialize (Hj m Hm). rewrite Forall_forall in Hj.
  apply Forall_forall. intros n Hn.
  destruct (joins_references _ _ _ (Hj n Hn)) as [E | Href]; [| exact Href].
  exfalso. rewrite forallb_forall in Hother. specialize (Hother m Hm).
  rewrite forallb_forall in Hother. specialize (Hother n Hn).
  unfold ident_eqb in Hother. rewrite E, String.eqb_refl in Hother. discriminate.
Qed.

Lemma queries_resolve_witness :
  exists q, In q semantic_queries /\ q_limit q = None /\
            resolves TPCDS_SEMANTIC_VIEW_SM q.
Proof.
  eexists. split; [right; left; reflexivity |]. split; [reflexivity |].
  exact (proj1 (queries_resolve _ (or_intror (or_introl eq_refl)))).
Defined.

Section Star.
Variables (A : Type) (R : A -> A -> Prop) (rank : A -> nat).
Hypothesis rank_decreases : forall a b, R a b -> (rank b < rank a)%nat.
Hypothesis rank_at_most_one : forall a, (rank a <= 1)%nat.

(** With two levels only, a path is a single edge. *)
Lemma path_is_edge (a b : A) : clos_trans A R a b -> R a b.
Proof.
  induction 1 as [a b Hab | a b c H1 IH1 H2 IH2]; [exact Hab |].
  exfalso. apply rank_decreases in IH1, IH2.
  pose proof (rank_at_most_one a). lia.
Qed.
End Star.

(** X13: the declared relationships form a star with no chain: every join
    path of the semantic view is a single relationship, it starts at the
    sales table STORESALES and ends at one of the five dimension tables. *)
Theorem join_paths_are_single_relationships (a b : string) :
  join_path TPCDS_SEMANTIC_VIEW_SM a b ->
  references TPCDS_SEMANTIC_VIEW_SM a b /\
  a = fact_table /\
  In b (dimension_tables TPCDS_SEMANTIC_VIEW_SM).
Proof.
  intros Hp.
  assert (Href : references TPCDS_SEMANTIC_VIEW_SM a b).
  { apply (path_is_edge string _ sales_rank references_rank); [| exact Hp].
    intros t. unfold sales_rank. destruct (String.eqb t (upper fact_table)); lia. }
  split; [exact Href |].
  destruct Href as [r [Hr [-> ->]]]. simpl in Hr.
  repeat (destruct Hr as [<- | Hr]; [split; [reflexivity | vm_compute; tauto] |]).
  destruct Hr.
Qed.

Lemma join_paths_are_single_relationships_witness :
  references TPCDS_SEMANTIC_VIEW_SM "STORESALES" "ITEM" /\
  In "ITEM" (dimension_tables TPCDS_SEMANTIC_VIEW_SM).
Proof.
  assert (Hp : join_path TPCDS_SEMANTIC_VIEW_SM "STORESALES" "ITEM").
  { apply t_step. exists SALESTOITEM. split; [simpl; tauto | split; reflexivity]. }
  destruct (join_paths_are_single_relationships "STORESALES" "ITEM" Hp) as [H1 [_ H3]].
  split; [exact H1 | exact H3].
Defined.

(** ** Running a cell again *)

Lemma cell_keeps_df (w : widgets) (ns : namespace) (d : dataframe) :
  ns "df" = Some (VFrame d) ->
  final (run_cell py_visualization w ns) "df" = Some (VFrame d) /\
  final (run_cell py_dashboard w ns) "df" = Some (VFrame d).
Proof.
  intros H. split.
  - destruct w as [[|] show]; run_cell_with H; destruct show; exact H.
  - destruct w as [[|] show]; run_cell_with H;
      match goal with |- context [idxmax ?s] => destruct (idxmax s) end;
      destruct show; exact H.
Qed.

Lemma dashboard_same_df (w : widgets) (ns ns' : namespace) (d : dataframe) :
  ns "df" = Some (VFrame d) ->
  ns' "df" = Some (VFrame d) ->
  outcome (run_cell py_dashboard w ns) = outcome (run_cell py_dashboard w ns') /\
  rendered (run_cell py_dashboard w ns) = rendered (run_cell py_dashboard w ns').
Proof.
  intros H H'. destruct (idxmax (grouped (selected w) d)) as [name | e] eqn:Hidx.
  - rewrite (dashboard_page_ok w ns d name H Hidx).
    rewrite (dashboard_page_ok w ns' d name H' Hidx).
    destruct (dashboard_run_ok w ns d name H Hidx) as [O _].
    destruct (dashboard_run_ok w ns' d name H' Hidx) as [O' _].
    split; congruence.
  - destruct (dashboard_run_raise w ns d e H Hidx) as [O P].
    destruct (dashboard_run_raise w ns' d e H' Hidx) as [O' P'].
    split; congruence.
Qed.

(** X14: a cell never rebinds [df], and what it binds does not feed back
    into it: run again on the bindings its own earlier run left (as happens
    each time a widget is touched), with any widget settings, a cell ends the
    same way and draws the same page as on the original bindings. *)
Theorem rerun_draws_same_page (w w' : widgets) (ns : namespace) (d : dataframe) :
  ns "df" = Some (VFrame d) ->
  final (run_cell py_visualization w ns) "df" = ns "df" /\
  final (run_cell py_dashboard w ns) "df" = ns "df" /\
  outcome (run_cell py_visualization w' (final (run_cell py_visualization w ns))) =
    outcome (run_cell py_visualization w' ns) /\
  rendered (run_cell py_visualization w' (final (run_cell py_visualization w ns))) =
    rendered (run_cell py_visualization w' ns) /\
  outcome (run_cell py_dashboard w' (final (run_cell py_dashboard w ns))) =
    outcome (run_cell py_dashboard w' ns) /\
  rendered (run_cell py_dashboard w' (final (run_cell py_dashboard w ns))) =
    rendered (run_cell py_dashboard w' ns).
Proof.
  intros H. destruct (cell_keeps_df w ns d H) as [Kv Kd].
  split; [now rewrite Kv |]. split; [now rewrite Kd |].
  destruct (visualization_run w' ns d H) as [O [P _]].
  destruct (visualization_run w' _ d Kv) as [O' [P' _]].
  split; [congruence |]. split; [congruence |].
  apply (dashboard_same_df w' _ ns d Kd H).
Qed.

Lemma rerun_draws_same_page_witness :
  rendered (run_cell py_dashboard by_state_hidden
              (final (run_cell py_dashboard by_brand_shown (fresh mixed)))) =
  rendered (run_cell py_dashboard by_state_hidden (fresh mixed)).
Proof.
  pose proof (rerun_draws_same_page by_brand_shown by_state_hidden (fresh mixed) mixed
                (eq_refl : fresh mixed "df" = Some (VFrame mixed))) as H.
  exact (proj2 (proj2 (proj2 (proj2 (proj2 H))))).
Defined.
